(** * Agentic AI Platform: the browser client

    A shallow embedding of the React client of the platform:
    - [frontend/src/services/api.js]: the axios instance, its two
      interceptors and the service operations built on it;
    - [frontend/src/pages/CreateAgentPage.js]: the agent list page
      ([AgentsPage]) and its [deleteAgent] handler;
    - [frontend/src/pages/AgentDetailPage.js]: the query and upload handlers
      and the parts of the view that depend on them.

    JavaScript strings are sequences of UTF-16 code units and are modelled as
    [list N]; values received from the server are JSON values; an [async]
    handler is a resumption: it runs up to its [await], hands a request to
    the network and continues from the reply. *)

From Stdlib Require Import ZArith NArith List String Ascii Bool Lia.
From stdpp Require Import gmap.
Import ListNotations.

(** ** Strings *)

(** A JavaScript string: its UTF-16 code units. *)
Abbreviation str := (list N).

(** An ASCII literal of the source as a JavaScript string. *)
Definition lit (s : string) : str :=
  List.map N_of_ascii (list_ascii_of_string s).

(** The same for a text with double quotes in it, written here with
    apostrophes. *)
Definition litq (s : string) : str :=
  List.map (fun c => if (c =? 39)%N then 34%N else c) (lit s).

Definition ch (a : ascii) : N := N_of_ascii a.

Definition str_eqb (a b : str) : bool := bool_decide (a = b).

(** WhiteSpace and LineTerminator code units of ECMAScript, the ones
    [String.prototype.trim] strips. *)
Definition is_white (c : N) : bool :=
  (  (c =? 9) || (c =? 10) || (c =? 11) || (c =? 12) || (c =? 13)
  || (c =? 32) || (c =? 160) || (c =? 5760)
  || ((8192 <=? c) && (c <=? 8202))
  || (c =? 8232) || (c =? 8233) || (c =? 8239) || (c =? 8287)
  || (c =? 12288) || (c =? 65279))%N.

Fixpoint trim_start (s : str) : str :=
  match s with
  | c :: r => if is_white c then trim_start r else s
  | [] => []
  end.

(** [s.trim()] *)
Definition trim (s : str) : str :=
  rev (trim_start (rev (trim_start s))).

(** ** JavaScript values that travel as JSON *)

(** A number is kept as the decimal it was written as,
    [(-1)^neg * mant * 10^exp10], and stands for the IEEE double of the
    runtime, which is its rounding: zero for [rounds_to_zero], an infinity
    for [rounds_to_infinity]. Two decimals of one double are one value to
    the runtime, so an equation between values below says at least that
    the runtime holds the same value on both sides. The
    members of an object are kept in the order of their first writing (the
    runtime lists integer-like names first; nothing here depends on the
    order, only on [assoc]). *)
#[warnings="-register-all"]
Inductive JSON : Type :=
| JNull
| JBool (b : bool)
| JNumber (neg : bool) (mant : N) (exp10 : Z)
| JString (s : str)
| JArray (elems : list JSON)
| JObject (members : list (str * JSON)).

(** The decimal rounds to (plus or minus) zero as a double: it is zero, or
    at most [2^-1075], half the least subnormal (a tie goes to the even
    neighbour, which is zero). *)
Definition rounds_to_zero (mant : N) (exp10 : Z) : bool :=
  (mant =? 0)%N
  || ((exp10 <? 0)%Z && (Z.of_N mant * 2 ^ 1075 <=? 10 ^ (- exp10))%Z).

(** The decimal rounds to an infinity as a double: it is at least
    [2^1024 - 2^970], half-way from the greatest double to [2^1024] (a tie
    goes to the even neighbour, which is out of range). *)
Definition rounds_to_infinity (mant : N) (exp10 : Z) : bool :=
  if (0 <=? exp10)%Z
  then (2 ^ 1024 - 2 ^ 970 <=? Z.of_N mant * 10 ^ exp10)%Z
  else ((2 ^ 1024 - 2 ^ 970) * 10 ^ (- exp10) <=? Z.of_N mant)%Z.

(** ToBoolean *)
Definition truthy (v : JSON) : bool :=
  match v with
  | JNull => false
  | JBool b => b
  | JNumber _ m e => negb (rounds_to_zero m e)
  | JString s => match s with [] => false | _ => true end
  | JArray _ | JObject _ => true
  end.

(** ToBoolean of an expression that may be [undefined] ([None]). *)
Definition truthy_opt (o : option JSON) : bool :=
  match o with Some v => truthy v | None => false end.

Fixpoint assoc (k : str) (l : list (str * JSON)) : option JSON :=
  match l with
  | [] => None
  | (k', v) :: r => if str_eqb k k' then Some v else assoc k r
  end.

(** Writing member [k] of an object: an existing member keeps its place and
    takes the new value, a new one is added. *)
Fixpoint obj_set (k : str) (v : JSON) (l : list (str * JSON))
  : list (str * JSON) :=
  match l with
  | [] => [(k, v)]
  | (k', v') :: r =>
      if str_eqb k k' then (k', v) :: r else (k', v') :: obj_set k v r
  end.

(** ** [JSON.parse]

    The built-in of the runtime, as a lexer and a push-down recogniser of the
    ECMA-404 grammar; both are one pass over their input. *)

Inductive Token : Type :=
| TLBrace | TRBrace | TLBracket | TRBracket | TColon | TComma
| TValue (v : JSON).

Inductive NumPhase : Type :=
| PMinus   (* after the sign, a digit is due *)
| PZero    (* after a leading 0 *)
| PInt     (* in the integer digits *)
| PDot     (* after the point, a digit is due *)
| PFrac    (* in the fraction digits *)
| PE       (* after e or E, a sign or a digit is due *)
| PESign   (* after the sign of the exponent, a digit is due *)
| PExp.    (* in the exponent digits *)

Inductive LexState : Type :=
| LStart
| LStr (acc : str)                       (* in a string; [acc] is reversed *)
| LEsc (acc : str)                       (* after a backslash *)
| LHex (acc : str) (n : nat) (v : N)     (* after \u and [n] hex digits *)
| LWord (rest : str) (v : JSON)          (* in true, false or null *)
| LNum (ph : NumPhase) (neg : bool) (mant : N) (frac : Z)
       (eneg : bool) (e : Z).

Definition is_digit (c : N) : bool := ((48 <=? c) && (c <=? 57))%N.

Definition digit_val (c : N) : N := (c - 48)%N.

Definition hex_val (c : N) : option N :=
  if is_digit c then Some (c - 48)%N
  else if ((65 <=? c) && (c <=? 70))%N then Some (c - 55)%N
  else if ((97 <=? c) && (c <=? 102))%N then Some (c - 87)%N
  else None.

Definition lex_start (c : N) : option (LexState * list Token) :=
  if ((c =? 32) || (c =? 9) || (c =? 10) || (c =? 13))%N
  then Some (LStart, [])
  else if (c =? ch "{")%N then Some (LStart, [TLBrace])
  else if (c =? ch "}")%N then Some (LStart, [TRBrace])
  else if (c =? ch "[")%N then Some (LStart, [TLBracket])
  else if (c =? ch "]")%N then Some (LStart, [TRBracket])
  else if (c =? ch ":")%N then Some (LStart, [TColon])
  else if (c =? ch ",")%N then Some (LStart, [TComma])
  else if (c =? 34)%N then Some (LStr [], [])
  else if (c =? ch "t")%N then Some (LWord (lit "rue") (JBool true), [])
  else if (c =? ch "f")%N then Some (LWord (lit "alse") (JBool false), [])
  else if (c =? ch "n")%N then Some (LWord (lit "ull") JNull, [])
  else if (c =? ch "-")%N then Some (LNum PMinus true 0 0 false 0, [])
  else if (c =? ch "0")%N then Some (LNum PZero false 0 0 false 0, [])
  else if is_digit c then Some (LNum PInt false (digit_val c) 0 false 0, [])
  else None.

Definition num_value (neg : bool) (mant : N) (frac : Z) (eneg : bool) (e : Z)
  : JSON :=
  JNumber neg mant ((if eneg then - e else e) - frac)%Z.

(** The number ends before [c], which is then read as the start of what
    follows. *)
Definition lex_num_end (v : JSON) (c : N) : option (LexState * list Token) :=
  match lex_start c with
  | Some (st, toks) => Some (st, TValue v :: toks)
  | None => None
  end.

Definition is_e (c : N) : bool := ((c =? ch "e") || (c =? ch "E"))%N.

Definition lex_num (ph : NumPhase) (neg : bool) (mant : N) (frac : Z)
    (eneg : bool) (e : Z) (c : N) : option (LexState * list Token) :=
  let d := digit_val c in
  let fin := lex_num_end (num_value neg mant frac eneg e) c in
  match ph with
  | PMinus =>
      if (c =? ch "0")%N then Some (LNum PZero neg 0 0 false 0, [])
      else if is_digit c then Some (LNum PInt neg d 0 false 0, [])
      else None
  | PZero =>
      if (c =? ch ".")%N then Some (LNum PDot neg mant frac eneg e, [])
      else if is_e c then Some (LNum PE neg mant frac eneg e, [])
      else fin
  | PInt =>
      if is_digit c then Some (LNum PInt neg (mant * 10 + d) frac eneg e, [])
      else if (c =? ch ".")%N then Some (LNum PDot neg mant frac eneg e, [])
      else if is_e c then Some (LNum PE neg mant frac eneg e, [])
      else fin
  | PDot =>
      if is_digit c
      then Some (LNum PFrac neg (mant * 10 + d) (frac + 1) eneg e, [])
      else None
  | PFrac =>
      if is_digit c
      then Some (LNum PFrac neg (mant * 10 + d) (frac + 1) eneg e, [])
      else if is_e c then Some (LNum PE neg mant frac eneg e, [])
      else fin
  | PE =>
      if (c =? ch "+")%N then Some (LNum PESign neg mant frac false e, [])
      else if (c =? ch "-")%N then Some (LNum PESign neg mant frac true e, [])
      else if is_digit c then Some (LNum PExp neg mant frac eneg (Z.of_N d), [])
      else None
  | PESign =>
      if is_digit c then Some (LNum PExp neg mant frac eneg (Z.of_N d), [])
      else None
  | PExp =>
      if is_digit c
      then Some (LNum PExp neg mant frac eneg (e * 10 + Z.of_N d), [])
      else fin
  end.

Definition lex_escape (acc : str) (c : N) : option (LexState * list Token) :=
  if ((c =? 34) || (c =? ch "\") || (c =? ch "/"))%N
  then Some (LStr (c :: acc), [])
  else if (c =? ch "b")%N then Some (LStr (8%N :: acc), [])
  else if (c =? ch "f")%N then Some (LStr (12%N :: acc), [])
  else if (c =? ch "n")%N then Some (LStr (10%N :: acc), [])
  else if (c =? ch "r")%N then Some (LStr (13%N :: acc), [])
  else if (c =? ch "t")%N then Some (LStr (9%N :: acc), [])
  else if (c =? ch "u")%N then Some (LHex acc 0 0, [])
  else None.

Definition lex_step (st : LexState) (c : N) : option (LexState * list Token) :=
  match st with
  | LStart => lex_start c
  | LStr acc =>
      if (c =? 34)%N then Some (LStart, [TValue (JString (rev acc))])
      else if (c =? ch "\")%N then Some (LEsc acc, [])
      else if (c <? 32)%N then None
      else Some (LStr (c :: acc), [])
  | LEsc acc => lex_escape acc c
  | LHex acc n v =>
      match hex_val c with
      | Some d =>
          let v' := (v * 16 + d)%N in
          match n with
          | 3%nat => Some (LStr (v' :: acc), [])
          | _ => Some (LHex acc (S n) v', [])
          end
      | None => None
      end
  | LWord rest v =>
      match rest with
      | x :: rest' =>
          if (c =? x)%N
          then match rest' with
               | [] => Some (LStart, [TValue v])
               | _ => Some (LWord rest' v, [])
               end
          else None
      | [] => None
      end
  | LNum ph neg mant frac eneg e => lex_num ph neg mant frac eneg e c
  end.

Definition lex_end (st : LexState) : option (list Token) :=
  match st with
  | LStart => Some []
  | LNum ph neg mant frac eneg e =>
      match ph with
      | PZero | PInt | PFrac | PExp =>
          Some [TValue (num_value neg mant frac eneg e)]
      | _ => None
      end
  | _ => None
  end.

Fixpoint lex (st : LexState) (s : str) : option (list Token) :=
  match s with
  | [] => lex_end st
  | c :: r =>
      match lex_step st c with
      | Some (st', toks) =>
          match lex st' r with
          | Some more => Some (toks ++ more)
          | None => None
          end
      | None => None
      end
  end.

(** The open containers, innermost first; members and elements are
    collected in reverse. *)
Inductive Frame : Type :=
| FArray (acc : list JSON)
| FObject (acc : list (str * JSON)) (key : option str).

Inductive Expect : Type :=
| XValue          (* a value *)
| XValueOrClose   (* just after [ *)
| XKeyOrClose     (* just after { *)
| XKey            (* after a comma in an object *)
| XColon
| XCommaOrClose   (* after a value in a container *)
| XEnd (v : JSON). (* the text is complete *)

Definition PState : Type := list Frame * Expect.

(** A complete value goes to the innermost open container, or is the
    result. *)
Definition deliver (v : JSON) (stack : list Frame) : option PState :=
  match stack with
  | [] => Some ([], XEnd v)
  | FArray acc :: st => Some (FArray (v :: acc) :: st, XCommaOrClose)
  | FObject acc (Some k) :: st =>
      Some (FObject (rev (obj_set k v (rev acc))) None :: st, XCommaOrClose)
  | FObject _ None :: _ => None
  end.

Definition close_array (stack : list Frame) : option PState :=
  match stack with
  | FArray acc :: st => deliver (JArray (rev acc)) st
  | _ => None
  end.

Definition close_object (stack : list Frame) : option PState :=
  match stack with
  | FObject acc None :: st => deliver (JObject (rev acc)) st
  | _ => None
  end.

Definition open_value (t : Token) (stack : list Frame) : option PState :=
  match t with
  | TValue v => deliver v stack
  | TLBracket => Some (FArray [] :: stack, XValueOrClose)
  | TLBrace => Some (FObject [] None :: stack, XKeyOrClose)
  | _ => None
  end.

Definition take_key (t : Token) (stack : list Frame) : option PState :=
  match t, stack with
  | TValue (JString k), FObject acc None :: st =>
      Some (FObject acc (Some k) :: st, XColon)
  | _, _ => None
  end.

Definition parse_step (ps : PState) (t : Token) : option PState :=
  let '(stack, x) := ps in
  match x with
  | XValue => open_value t stack
  | XValueOrClose =>
      match t with TRBracket => close_array stack | _ => open_value t stack end
  | XKeyOrClose =>
      match t with TRBrace => close_object stack | _ => take_key t stack end
  | XKey => take_key t stack
  | XColon => match t with TColon => Some (stack, XValue) | _ => None end
  | XCommaOrClose =>
      match t, stack with
      | TComma, FArray _ :: _ => Some (stack, XValue)
      | TComma, FObject _ None :: _ => Some (stack, XKey)
      | TRBracket, _ => close_array stack
      | TRBrace, _ => close_object stack
      | _, _ => None
      end
  | XEnd _ => None
  end.

Fixpoint parse_tokens (ps : PState) (ts : list Token) : option PState :=
  match ts with
  | [] => Some ps
  | t :: r =>
      match parse_step ps t with
      | Some ps' => parse_tokens ps' r
      | None => None
      end
  end.

(** [JSON.parse(text)]: [None] is the SyntaxError it throws. *)
Definition JSON_parse (text : str) : option JSON :=
  match lex LStart text with
  | Some ts =>
      match parse_tokens ([], XValue) ts with
      | Some ([], XEnd v) => Some v
      | _ => None
      end
  | None => None
  end.


(** ** [JSON.stringify]

    The text of a value, kept as the value that the text denotes. An
    infinity is written [null] and minus zero is written [0]; every other
    number is written as a decimal of the same double, and strings,
    booleans and [null] as themselves. *)
Fixpoint JSON_stringify (v : JSON) : JSON :=
  match v with
  | JNumber neg m e =>
      if rounds_to_infinity m e then JNull
      else JNumber (neg && negb (rounds_to_zero m e)) m e
  | JArray l => JArray (List.map JSON_stringify l)
  | JObject ms =>
      JObject (List.map (fun kv => (fst kv, JSON_stringify (snd kv))) ms)
  | _ => v
  end.

(** Every number of the value has a decimal of its own: none is an
    infinity and none is minus zero. *)
Fixpoint written_as_is (v : JSON) : bool :=
  match v with
  | JNumber neg m e =>
      negb (rounds_to_infinity m e) && negb (neg && rounds_to_zero m e)
  | JArray l => forallb written_as_is l
  | JObject ms => forallb (fun kv => written_as_is (snd kv)) ms
  | _ => true
  end.

(** ** Requests, replies and errors *)

Inductive Method : Type := GET | POST | PUT | DELETE.

Record File : Type := { file_name : str; file_data : list N }.

(** An entry of a [FormData]: a file, or a value that the form turns into
    text. *)
Inductive FormValue : Type :=
| FFile (f : File)
| FText (v : JSON).

(** A body of JSON text is kept as the value that the text denotes. *)
Inductive Body : Type :=
| NoBody
| JsonBody (v : JSON)
| UrlEncoded (fields : list (str * str))
| FormData (entries : list (str * FormValue)).

(** The request configuration that reaches the transport. *)
Record Request : Type := {
  method : Method;
  baseURL : option (option str);   (* [None]: the configuration has none *)
  url : str;
  headers : gmap str str;
  data : Body
}.

Record Response : Type := { status : N; response_data : JSON }.

(** What comes back for a request: a response of any status, or none. *)
Inductive Reply : Type :=
| Replied (r : Response)
| NoReply.

(** What a [catch] can receive. An error of axios carries the response when
    there was one; [ReactError] is the [Error] React throws for a child it
    cannot show. *)
Inductive Error : Type :=
| AxiosError (response : option Response)
| TypeError
| SyntaxError
| ReactError.

(** ** The data model of the pages *)

(** An agent as the registry returns it; [id] and [type] are strings. *)
Record Agent : Type := {
  agent_id : str;
  agent_name : str;
  agent_type : str;
  agent_description : option str;
  agent_config : option JSON;      (* [None]: the record has no [config] *)
  agent_created_at : str
}.

(** The hooks of [AgentsPage]. *)
Record AgentsPageState : Type := {
  agents : list Agent;
  agents_loading : bool;
  agents_error : option str
}.

(** The route parameter and the hooks of [AgentDetailPage]. *)
Record AgentDetailState : Type := {
  agentId : str;
  agent : option Agent;
  loading : bool;
  error : option str;
  query : str;
  queryResult : JSON;
  queryLoading : bool;
  queryError : option str;
  file : option File;
  uploadResult : JSON;
  uploadLoading : bool;
  uploadError : option str
}.

(** What the client did to the browser, oldest first. *)
Inductive Effect : Type :=
| RemoveItem (key : str)
| SetHref (target : str).

(** The client: the environment it was built with, the browser, and the
    state of the two pages. *)
Record Client : Type := {
  API_URL : option str;            (* [process.env.REACT_APP_API_URL] *)
  localStorage : gmap str str;
  location_href : str;
  journal : list Effect;
  confirm : str -> bool;           (* the user's answer to [window.confirm] *)
  file_upload_value : str;         (* the value of the control #file-upload *)
  agentsPage : AgentsPageState;
  detailPage : AgentDetailState
}.

Definition with_browser (st : gmap str str) (href : str) (j : list Effect)
    (c : Client) : Client :=
  {| API_URL := API_URL c; localStorage := st; location_href := href;
     journal := j; confirm := confirm c;
     file_upload_value := file_upload_value c;
     agentsPage := agentsPage c; detailPage := detailPage c |}.

Definition with_file_upload_value (v : str) (c : Client) : Client :=
  {| API_URL := API_URL c; localStorage := localStorage c;
     location_href := location_href c; journal := journal c;
     confirm := confirm c; file_upload_value := v;
     agentsPage := agentsPage c; detailPage := detailPage c |}.

Definition with_agentsPage (p : AgentsPageState) (c : Client) : Client :=
  {| API_URL := API_URL c; localStorage := localStorage c;
     location_href := location_href c; journal := journal c;
     confirm := confirm c; file_upload_value := file_upload_value c;
     agentsPage := p; detailPage := detailPage c |}.

Definition with_detailPage (p : AgentDetailState) (c : Client) : Client :=
  {| API_URL := API_URL c; localStorage := localStorage c;
     location_href := location_href c; journal := journal c;
     confirm := confirm c; file_upload_value := file_upload_value c;
     agentsPage := agentsPage c; detailPage := p |}.

(** ** Asynchronous code

    An [async] function runs until it is done or until it awaits the
    network; from there it continues with the reply, in the state the client
    is in by then. *)

Inductive Outcome (A : Type) : Type :=
| Returned (a : A)
| Thrown (e : Error).
Arguments Returned {A} a.
Arguments Thrown {A} e.

Inductive Step (A : Type) : Type :=
| Done (o : Outcome A) (c : Client)
| Await (c : Client) (req : Request) (k : Reply -> Client -> Step A).
Arguments Done {A} o c.
Arguments Await {A} c req k.

Definition Async (A : Type) : Type := Client -> Step A.

Definition ret {A} (a : A) : Async A := fun c => Done (Returned a) c.

Definition throw {A} (e : Error) : Async A := fun c => Done (Thrown e) c.

Fixpoint step_bind {A B} (s : Step A) (f : A -> Async B) : Step B :=
  match s with
  | Done (Returned a) c => f a c
  | Done (Thrown e) c => Done (Thrown e) c
  | Await c req k => Await c req (fun rp c' => step_bind (k rp c') f)
  end.

Definition bind {A B} (m : Async A) (f : A -> Async B) : Async B :=
  fun c => step_bind (m c) f.

(** [try { m } catch (e) { h e }] *)
Fixpoint step_catch {A} (s : Step A) (h : Error -> Async A) : Step A :=
  match s with
  | Done (Returned a) c => Done (Returned a) c
  | Done (Thrown e) c => h e c
  | Await c req k => Await c req (fun rp c' => step_catch (k rp c') h)
  end.

Definition try_catch {A} (m : Async A) (h : Error -> Async A) : Async A :=
  fun c => step_catch (m c) h.

(** [try { m } finally { fin }]: the outcome of [m] stands unless [fin]
    throws. *)
Fixpoint step_finally {A} (s : Step A) (fin : Async unit) : Step A :=
  match s with
  | Done o c => step_bind (fin c) (fun _ c' => Done o c')
  | Await c req k => Await c req (fun rp c' => step_finally (k rp c') fin)
  end.

Definition try_finally {A} (m : Async A) (fin : Async unit) : Async A :=
  fun c => step_finally (m c) fin.

Declare Scope async_scope.
Delimit Scope async_scope with async.
Notation "x <- m ;; k" := (bind m (fun x => k))
  (at level 100, m at next level, right associativity) : async_scope.
Notation "m ;;; k" := (bind m (fun _ => k))
  (at level 100, right associativity) : async_scope.
Local Open Scope async_scope.

Definition get : Async Client := fun c => Done (Returned c) c.

Definition modify (f : Client -> Client) : Async unit :=
  fun c => Done (Returned tt) (f c).

(** The request goes out; the function continues with the reply. *)
Definition send (req : Request) : Async Reply :=
  fun c => Await c req (fun rp c' => Done (Returned rp) c').

(** One handler run to its end against a network that answers [net], with
    nothing else happening in between: the outcome, the client after it, and
    the requests that went out, in order. *)
Record Run (A : Type) : Type := {
  outcome : Outcome A;
  after : Client;
  sent : list Request
}.
Arguments outcome {A} r.
Arguments after {A} r.
Arguments sent {A} r.

Fixpoint run {A} (net : Request -> Reply) (s : Step A) : Run A :=
  match s with
  | Done o c => {| outcome := o; after := c; sent := [] |}
  | Await c req k =>
      let r := run net (k (net req) c) in
      {| outcome := outcome r; after := after r; sent := req :: sent r |}
  end.

(** ** The browser *)

(** [localStorage.getItem(key)] *)
Definition localStorage_getItem (key : str) : Async (option str) :=
  c <- get ;; ret (localStorage c !! key).

(** [localStorage.removeItem(key)] *)
Definition localStorage_removeItem (key : str) : Async unit :=
  modify (fun c =>
    with_browser (delete key (localStorage c)) (location_href c)
                 (journal c ++ [RemoveItem key]) c).

(** [window.location.href = target] *)
Definition set_location_href (target : str) : Async unit :=
  modify (fun c =>
    with_browser (localStorage c) target (journal c ++ [SetHref target]) c).

(** [window.confirm(message)] *)
Definition window_confirm (message : str) : Async bool :=
  c <- get ;; ret (confirm c message).

(** A string in a condition: empty is false. *)
Definition nonempty (s : str) : bool :=
  match s with [] => false | _ => true end.

(** [null] or a string in a condition. *)
Definition truthy_str (o : option str) : bool :=
  match o with Some s => nonempty s | None => false end.

(** A value inside a template literal: the string, or the name of what
    stands in for it ([null] for a stored item, [undefined] for a variable
    of the environment). *)
Definition template (absent : string) (o : option str) : str :=
  match o with Some s => s | None => lit absent end.

(** ** [services/api.js] *)

(** The transport of axios: the request goes out, and the promise is
    fulfilled for a status from 200 to 299 and rejected otherwise, with the
    response in the error when there was one. *)
Definition settle (rp : Reply) : Async Response :=
  match rp with
  | Replied r =>
      if ((200 <=? status r) && (status r <? 300))%N then ret r
      else throw (AxiosError (Some r))
  | NoReply => throw (AxiosError None)
  end.

(** [stringifySafely] of axios: a string that is JSON text already goes out
    as it is, anything else as [JSON.stringify] writes it. *)
Definition stringifySafely (rawValue : JSON) : JSON :=
  match rawValue with
  | JString s =>
      match JSON_parse s with
      | Some v => v
      | None => JString s
      end
  | _ => JSON_stringify rawValue
  end.

(** [transformRequest] of axios, for data sent under the Content-Type
    [application/json] of the instance: the data becomes its text. A form
    and the parameters of a URL pass as they are. *)
Definition transformRequest (body : Body) : Body :=
  match body with
  | JsonBody v => JsonBody (stringifySafely v)
  | _ => body
  end.

Definition dispatchRequest (config : Request) : Async Response :=
  rp <- send {| method := method config; baseURL := baseURL config;
                url := url config; headers := headers config;
                data := transformRequest (data config) |} ;;
  settle rp.

(** [promise.then(onFulfilled, onRejected)] *)
Fixpoint step_then {A B} (s : Step A) (f : A -> Async B)
    (r : Error -> Async B) : Step B :=
  match s with
  | Done (Returned a) c => f a c
  | Done (Thrown e) c => r e c
  | Await c req k => Await c req (fun rp c' => step_then (k rp c') f r)
  end.

Definition promise_then {A B} (m : Async A) (f : A -> Async B)
    (r : Error -> Async B) : Async B :=
  fun c => step_then (m c) f r.

(** The headers axios gives every request, whatever the instance. *)
Definition axios_headers : gmap str str :=
  {[ lit "Accept" := lit "application/json, text/plain, */*" ]}.

(** The headers [axios.create] gives the instance [api]: its own over the
    ones of the library. *)
Definition api_headers : gmap str str :=
  {[ lit "Content-Type" := lit "application/json" ]} ∪ axios_headers.

Definition with_header (name value : str) (config : Request) : Request :=
  {| method := method config; baseURL := baseURL config; url := url config;
     headers := <[ name := value ]> (headers config); data := data config |}.

(** The request interceptor of [api]. *)
Definition request_interceptor (config : Request) : Async Request :=
  token <- localStorage_getItem (lit "token") ;;
  if truthy_str token
  then ret (with_header (lit "Authorization")
                        (lit "Bearer " ++ template "null" token) config)
  else ret config.

Definition is_401 (error : Error) : bool :=
  match error with
  | AxiosError (Some r) => (status r =? 401)%N
  | _ => false
  end.

(** The response interceptor of [api]: its handler for a response and its
    handler for an error. *)
Definition response_interceptor (response : Response) : Async Response :=
  ret response.

Definition response_error_interceptor (error : Error) : Async Response :=
  (if is_401 error
   then (localStorage_removeItem (lit "token") ;;;
         set_location_href (lit "/login"))
   else ret tt) ;;;
  throw error.

(** A request through the instance [api]: its defaults under the headers of
    the call, the request interceptor, the transport, the response
    interceptor. *)
Definition api_request (m : Method) (path : str) (body : Body)
    (hdrs : gmap str str) : Async Response :=
  c <- get ;;
  config <- request_interceptor
              {| method := m; baseURL := Some (API_URL c); url := path;
                 headers := hdrs ∪ api_headers; data := body |} ;;
  promise_then (dispatchRequest config)
               response_interceptor response_error_interceptor.

Definition api_get (path : str) : Async Response :=
  api_request GET path NoBody ∅.
Definition api_post (path : str) (body : Body) (hdrs : gmap str str)
  : Async Response := api_request POST path body hdrs.
Definition api_put (path : str) (body : Body) : Async Response :=
  api_request PUT path body ∅.
Definition api_delete (path : str) : Async Response :=
  api_request DELETE path NoBody ∅.

(** [axios.post] on the library itself: no instance, no interceptor; the
    headers of the call over the ones of the library. *)
Definition axios_post (target : str) (body : Body) (hdrs : gmap str str)
  : Async Response :=
  dispatchRequest {| method := POST; baseURL := None; url := target;
                     headers := hdrs ∪ axios_headers; data := body |}.

Definition rethrow {A} (error : Error) : Async A := throw error.

Definition authService_login (username password : str) : Async JSON :=
  try_catch
    (c <- get ;;
     response <- axios_post
       (template "undefined" (API_URL c) ++ lit "/auth/token")
       (UrlEncoded [(lit "username", username); (lit "password", password)])
       {[ lit "Content-Type" := lit "application/x-www-form-urlencoded" ]} ;;
     ret (response_data response))
    rethrow.

Definition authService_register (userData : JSON) : Async JSON :=
  try_catch
    (response <- api_post (lit "/auth/register") (JsonBody userData) ∅ ;;
     ret (response_data response))
    rethrow.

Definition authService_getCurrentUser : Async JSON :=
  try_catch
    (response <- api_get (lit "/users/me") ;;
     ret (response_data response))
    rethrow.

Definition agentsService_getAgents : Async JSON :=
  try_catch
    (response <- api_get (lit "/agents") ;;
     ret (response_data response))
    rethrow.

Definition agentsService_getAgent (agentId : str) : Async JSON :=
  try_catch
    (response <- api_get (lit "/agents/" ++ agentId) ;;
     ret (response_data response))
    rethrow.

Definition agentsService_createAgent (agentData : JSON) : Async JSON :=
  try_catch
    (response <- api_post (lit "/agents") (JsonBody agentData) ∅ ;;
     ret (response_data response))
    rethrow.

Definition agentsService_updateAgent (agentId : str) (agentData : JSON)
  : Async JSON :=
  try_catch
    (response <- api_put (lit "/agents/" ++ agentId) (JsonBody agentData) ;;
     ret (response_data response))
    rethrow.

Definition agentsService_deleteAgent (agentId : str) : Async JSON :=
  try_catch
    (api_delete (lit "/agents/" ++ agentId) ;;;
     ret (JBool true))
    rethrow.

(** [parameters = {}]: an argument left out ([None]) is the empty object. *)
Definition agentsService_queryAgent (agentId : str) (query : str)
    (parameters : option JSON) : Async JSON :=
  let parameters :=
    match parameters with Some p => p | None => JObject [] end in
  try_catch
    (response <- api_post (lit "/agents/" ++ agentId ++ lit "/query")
       (JsonBody (JObject [(lit "query", JString query);
                           (lit "parameters", parameters)])) ∅ ;;
     ret (response_data response))
    rethrow.

(** [collectionName = null]: an argument that is [undefined] ([None]) is
    [null]. *)
Definition agentsService_uploadDocument (agentId : str) (file : File)
    (collectionName : option JSON) : Async JSON :=
  let collectionName :=
    match collectionName with Some n => n | None => JNull end in
  try_catch
    (let formData := [(lit "file", FFile file)] in
     let formData :=
       if truthy collectionName
       then formData ++ [(lit "collection_name", FText collectionName)]
       else formData in
     response <- api_post (lit "/agents/" ++ agentId ++ lit "/upload")
       (FormData formData)
       {[ lit "Content-Type" := lit "multipart/form-data" ]} ;;
     ret (response_data response))
    rethrow.

(** The operations the module exports, with their arguments. *)
Inductive Operation : Type :=
| Login (username password : str)
| Register (userData : JSON)
| GetCurrentUser
| GetAgents
| GetAgent (agentId : str)
| CreateAgent (agentData : JSON)
| UpdateAgent (agentId : str) (agentData : JSON)
| DeleteAgent (agentId : str)
| QueryAgent (agentId : str) (query : str) (parameters : option JSON)
| UploadDocument (agentId : str) (file : File) (collectionName : option JSON).

Definition perform (op : Operation) : Async JSON :=
  match op with
  | Login u p => authService_login u p
  | Register d => authService_register d
  | GetCurrentUser => authService_getCurrentUser
  | GetAgents => agentsService_getAgents
  | GetAgent i => agentsService_getAgent i
  | CreateAgent d => agentsService_createAgent d
  | UpdateAgent i d => agentsService_updateAgent i d
  | DeleteAgent i => agentsService_deleteAgent i
  | QueryAgent i q p => agentsService_queryAgent i q p
  | UploadDocument i f n => agentsService_uploadDocument i f n
  end.

(** ** [pages/CreateAgentPage.js]: the component [AgentsPage] *)

Definition setAgents (l : list Agent) : Async unit :=
  modify (fun c =>
    with_agentsPage
      {| agents := l; agents_loading := agents_loading (agentsPage c);
         agents_error := agents_error (agentsPage c) |} c).

Definition AgentsPage_setError (e : option str) : Async unit :=
  modify (fun c =>
    with_agentsPage
      {| agents := agents (agentsPage c);
         agents_loading := agents_loading (agentsPage c);
         agents_error := e |} c).

(** The handler holds the [agents] of the render it was made in. *)
Definition AgentsPage_deleteAgent (agentId : str) : Async unit :=
  c0 <- get ;;
  let agents := agents (agentsPage c0) in
  ok <- window_confirm (lit "Are you sure you want to delete this agent?") ;;
  if negb ok then ret tt
  else
    try_catch
      (agentsService_deleteAgent agentId ;;;
       setAgents (filter (fun agent => agent_id agent <> agentId) agents))
      (fun err =>
         AgentsPage_setError
           (Some (lit "Failed to delete agent. Please try again."))).

(** ** [pages/AgentDetailPage.js] *)

(** The hooks of the detail page with one of them replaced. *)
Definition put_query (c : Client) (v : str) : Client :=
  let p := detailPage c in
  with_detailPage
    {| agentId := agentId p; agent := agent p; loading := loading p;
       error := error p; query := v; queryResult := queryResult p;
       queryLoading := queryLoading p; queryError := queryError p;
       file := file p; uploadResult := uploadResult p;
       uploadLoading := uploadLoading p; uploadError := uploadError p |} c.

Definition put_queryResult (c : Client) (v : JSON) : Client :=
  let p := detailPage c in
  with_detailPage
    {| agentId := agentId p; agent := agent p; loading := loading p;
       error := error p; query := query p; queryResult := v;
       queryLoading := queryLoading p; queryError := queryError p;
       file := file p; uploadResult := uploadResult p;
       uploadLoading := uploadLoading p; uploadError := uploadError p |} c.

Definition put_queryLoading (c : Client) (v : bool) : Client :=
  let p := detailPage c in
  with_detailPage
    {| agentId := agentId p; agent := agent p; loading := loading p;
       error := error p; query := query p; queryResult := queryResult p;
       queryLoading := v; queryError := queryError p;
       file := file p; uploadResult := uploadResult p;
       uploadLoading := uploadLoading p; uploadError := uploadError p |} c.

Definition put_queryError (c : Client) (v : option str) : Client :=
  let p := detailPage c in
  with_detailPage
    {| agentId := agentId p; agent := agent p; loading := loading p;
       error := error p; query := query p; queryResult := queryResult p;
       queryLoading := queryLoading p; queryError := v;
       file := file p; uploadResult := uploadResult p;
       uploadLoading := uploadLoading p; uploadError := uploadError p |} c.

Definition put_file (c : Client) (v : option File) : Client :=
  let p := detailPage c in
  with_detailPage
    {| agentId := agentId p; agent := agent p; loading := loading p;
       error := error p; query := query p; queryResult := queryResult p;
       queryLoading := queryLoading p; queryError := queryError p;
       file := v; uploadResult := uploadResult p;
       uploadLoading := uploadLoading p; uploadError := uploadError p |} c.

Definition put_uploadResult (c : Client) (v : JSON) : Client :=
  let p := detailPage c in
  with_detailPage
    {| agentId := agentId p; agent := agent p; loading := loading p;
       error := error p; query := query p; queryResult := queryResult p;
       queryLoading := queryLoading p; queryError := queryError p;
       file := file p; uploadResult := v;
       uploadLoading := uploadLoading p; uploadError := uploadError p |} c.

Definition put_uploadLoading (c : Client) (v : bool) : Client :=
  let p := detailPage c in
  with_detailPage
    {| agentId := agentId p; agent := agent p; loading := loading p;
       error := error p; query := query p; queryResult := queryResult p;
       queryLoading := queryLoading p; queryError := queryError p;
       file := file p; uploadResult := uploadResult p;
       uploadLoading := v; uploadError := uploadError p |} c.

Definition put_uploadError (c : Client) (v : option str) : Client :=
  let p := detailPage c in
  with_detailPage
    {| agentId := agentId p; agent := agent p; loading := loading p;
       error := error p; query := query p; queryResult := queryResult p;
       queryLoading := queryLoading p; queryError := queryError p;
       file := file p; uploadResult := uploadResult p;
       uploadLoading := uploadLoading p; uploadError := v |} c.


Definition setQuery (v : str) : Async unit :=
  modify (fun c => put_query c v).
Definition setQueryResult (v : JSON) : Async unit :=
  modify (fun c => put_queryResult c v).
Definition setQueryLoading (v : bool) : Async unit :=
  modify (fun c => put_queryLoading c v).
Definition setQueryError (v : option str) : Async unit :=
  modify (fun c => put_queryError c v).
Definition setFile (v : option File) : Async unit :=
  modify (fun c => put_file c v).
Definition setUploadResult (v : JSON) : Async unit :=
  modify (fun c => put_uploadResult c v).
Definition setUploadLoading (v : bool) : Async unit :=
  modify (fun c => put_uploadLoading c v).
Definition setUploadError (v : option str) : Async unit :=
  modify (fun c => put_uploadError c v).

(** [o.name], for a name that no prototype defines: reading it off [null]
    or [undefined] is a TypeError, off an object it is the member or
    [undefined], off any other value it is [undefined]. *)
Definition member (o : option JSON) (name : str) : Outcome (option JSON) :=
  match o with
  | None | Some JNull => Thrown TypeError
  | Some (JObject ms) => Returned (assoc name ms)
  | Some _ => Returned None
  end.

Definition lift {A} (o : Outcome A) : Async A := fun c => Done o c.

(** [agent.type] and [agent.config] of the hook [agent], which is [null]
    until an agent is loaded. *)
Definition the_agent (a : option Agent) : Outcome Agent :=
  match a with Some x => Returned x | None => Thrown TypeError end.

Definition handleQuerySubmit : Async unit :=
  c0 <- get ;;
  let query := query (detailPage c0) in
  let agent := agent (detailPage c0) in
  let agentId := agentId (detailPage c0) in
  if negb (nonempty (trim query)) then ret tt
  else
    setQueryLoading true ;;;
    setQueryResult JNull ;;;
    setQueryError None ;;;
    try_finally
      (try_catch
         (result <-
            (a <- lift (the_agent agent) ;;
             if str_eqb (agent_type a) (lit "ml")
             then
               match JSON_parse query with
               | Some parsed =>
                   agentsService_queryAgent agentId (lit "")
                     (Some (JObject [(lit "data", parsed)]))
               | None => throw SyntaxError
               end
             else agentsService_queryAgent agentId query None) ;;
          setQueryResult result)
         (fun err =>
            setQueryError
              (Some (lit "Failed to get a response from the agent."))))
      (setQueryLoading false).

(** The early returns of the component and the condition on the upload
    section: whether the control #file-upload is in the document. *)
Definition page_shown (p : AgentDetailState) : bool :=
  negb (loading p) && negb (truthy_str (error p))
  && match agent p with Some _ => true | None => false end.

Definition upload_section_shown (p : AgentDetailState) : bool :=
  page_shown p
  && match agent p with
     | Some a => str_eqb (agent_type a) (lit "rag")
     | None => false
     end.

(** [document.getElementById('file-upload')], then [fileInput.value = '']
    if there is such a control. *)
Definition reset_file_input : Async unit :=
  c <- get ;;
  if upload_section_shown (detailPage c)
  then modify (with_file_upload_value (lit ""))
  else ret tt.

Definition handleFileUpload : Async unit :=
  c0 <- get ;;
  let file := file (detailPage c0) in
  let agent := agent (detailPage c0) in
  let agentId := agentId (detailPage c0) in
  match file with
  | None => ret tt
  | Some f =>
      setUploadLoading true ;;;
      setUploadResult JNull ;;;
      setUploadError None ;;;
      try_finally
        (try_catch
           (collectionName <-
              lift (match the_agent agent with
                    | Returned a =>
                        member (agent_config a) (lit "collection_name")
                    | Thrown e => Thrown e
                    end) ;;
            result <- agentsService_uploadDocument agentId f collectionName ;;
            setUploadResult result ;;;
            setFile None ;;;
            reset_file_input)
           (fun err =>
              setUploadError (Some (lit "Failed to upload document."))))
        (setUploadLoading false)
  end.

(** [disabled={uploadLoading || !file}] and [disabled={queryLoading}]. *)
Definition upload_submit_disabled (p : AgentDetailState) : bool :=
  uploadLoading p || match file p with Some _ => false | None => true end.

Definition query_submit_disabled (p : AgentDetailState) : bool :=
  queryLoading p.

(** *** The response block of the view

    What the JSX of the block evaluates to. [a && b] is [a] itself when [a]
    is falsy, so a place in the view holds either an element or the value
    that cut the expression short. *)

Inductive Slot (A : Type) : Type :=
| Element (a : A)
| Value (v : option JSON).
Arguments Element {A} a.
Arguments Value {A} v.

Definition outcome_bind {A B} (o : Outcome A) (f : A -> Outcome B)
  : Outcome B :=
  match o with Returned a => f a | Thrown e => Thrown e end.

Fixpoint map_outcome {A B} (f : A -> Outcome B) (l : list A)
  : Outcome (list B) :=
  match l with
  | [] => Returned []
  | x :: r =>
      outcome_bind (f x) (fun y =>
      outcome_bind (map_outcome f r) (fun ys => Returned (y :: ys)))
  end.

(** [v.map(f)]: only an array has a [map] to call. *)
Definition array_map {A} (v : JSON) (f : JSON -> Outcome A)
  : Outcome (list A) :=
  match v with
  | JArray l => map_outcome f l
  | _ => Thrown TypeError
  end.

Fixpoint scan_digits (s : str) (acc : N) (n : Z) : N * Z * str :=
  match s with
  | c :: r =>
      if is_digit c then scan_digits r (acc * 10 + digit_val c)%N (n + 1)%Z
      else (acc, n, s)
  | [] => (acc, n, [])
  end.

(** An unsigned decimal literal of StringToNumber that denotes a number
    above zero. *)
Definition decimal_positive (s : str) : bool :=
  if str_eqb s (lit "Infinity") then true
  else
    let '(m1, n1, r1) := scan_digits s 0 0 in
    let '(m2, n2, r2) :=
      match r1 with
      | c :: r => if (c =? ch ".")%N then scan_digits r m1 0 else (m1, 0%Z, r1)
      | [] => (m1, 0%Z, [])
      end in
    if (n1 + n2 =? 0)%Z then false
    else
      match r2 with
      | [] => negb (rounds_to_zero m2 (- n2))
      | c :: r =>
          if is_e c
          then
            let '(eneg, r') :=
              match r with
              | x :: r' =>
                  if (x =? ch "+")%N then (false, r')
                  else if (x =? ch "-")%N then (true, r')
                  else (false, r)
              | [] => (false, [])
              end in
            let '(e, n3, r3) := scan_digits r' 0 0 in
            (0 <? n3)%Z && negb (nonempty r3)
            && negb (rounds_to_zero m2
                       ((if eneg then - Z.of_N e else Z.of_N e) - n2))
          else false
      end.

Definition radix_positive (digit : N -> bool) (s : str) : bool :=
  nonempty s && forallb digit s && existsb (fun c => negb (c =? 48)%N) s.

Definition is_hex (c : N) : bool :=
  match hex_val c with Some _ => true | None => false end.

(** StringToNumber of [s] is above zero. *)
Definition string_positive (s : str) : bool :=
  let t := trim s in
  match t with
  | 48%N :: x :: r =>
      if ((x =? ch "x") || (x =? ch "X"))%N then radix_positive is_hex r
      else if ((x =? ch "o") || (x =? ch "O"))%N
      then radix_positive (fun c => (48 <=? c) && (c <=? 55))%N r
      else if ((x =? ch "b") || (x =? ch "B"))%N
      then radix_positive (fun c => (48 <=? c) && (c <=? 49))%N r
      else decimal_positive t
  | 43%N :: r => decimal_positive r
  | 45%N :: _ => false
  | _ => decimal_positive t
  end.

(** [v > 0]: ToNumber of [v] is above zero. An array goes through the text
    of its elements joined by commas, an object through a text that is no
    number. *)
Fixpoint to_number_positive (v : JSON) : bool :=
  match v with
  | JNull => false
  | JBool b => b
  | JNumber neg m e => negb neg && negb (rounds_to_zero m e)
  | JString s => string_positive s
  | JArray [x] =>
      match x with
      | JNull | JBool _ | JObject _ => false
      | _ => to_number_positive x
      end
  | JArray _ => false
  | JObject _ => false
  end.

(** [v.length > 0] for a [v] that is neither [null] nor [undefined]. *)
Definition length_positive (v : JSON) : bool :=
  match v with
  | JArray l => match l with [] => false | _ => true end
  | JString s => nonempty s
  | JObject ms =>
      match assoc (lit "length") ms with
      | Some x => to_number_positive x
      | None => false
      end
  | _ => false
  end.

(** [a && rest] *)
Definition and_then {A} (a : option JSON) (rest : Outcome (Slot A))
  : Outcome (Slot A) :=
  if truthy_opt a then rest else Returned (Value a).

Record RagView : Type := {
  rag_answer : option JSON;
  rag_sources : Slot (list str)
}.

Record SearchView : Type := {
  search_answer : option JSON;
  search_sources : Slot (list (option JSON * option JSON))  (* link, title *)
}.

Record ResponseView : Type := {
  rag_block : Slot RagView;
  search_block : Slot SearchView;
  ml_block : Slot JSON
}.

(** [{doc.content.substring(0, 100)}...] *)
Definition render_source (doc : JSON) : Outcome str :=
  outcome_bind (member (Some doc) (lit "content")) (fun content =>
  match content with
  | Some (JString s) => Returned (firstn 100 s ++ lit "...")
  | _ => Thrown TypeError
  end).

Definition render_search_result (result : JSON)
  : Outcome (option JSON * option JSON) :=
  outcome_bind (member (Some result) (lit "link")) (fun link =>
  outcome_bind (member (Some result) (lit "title")) (fun title =>
  Returned (link, title))).

(** [xs && xs.length > 0 && (xs.map(item))] *)
Definition render_list {A} (xs : option JSON) (item : JSON -> Outcome A)
  : Outcome (Slot (list A)) :=
  and_then xs
    (match xs with
     | Some l =>
         if length_positive l
         then outcome_bind (array_map l item) (fun items =>
              Returned (Element items))
         else Returned (Value (Some (JBool false)))
     | None => Returned (Value None)
     end).

Definition when_type {A} (a : Agent) (t : str) (rest : Outcome (Slot A))
  : Outcome (Slot A) :=
  if str_eqb (agent_type a) t then rest
  else Returned (Value (Some (JBool false))).

(** [{queryResult && (...)}] of the component, for the [agent] it shows:
    the elements the expression evaluates to. *)
Definition response_elements (a : Agent) (queryResult : JSON)
  : Outcome (Slot ResponseView) :=
  and_then (Some queryResult)
    (outcome_bind
       (when_type a (lit "rag")
          (outcome_bind (member (Some queryResult) (lit "answer"))
             (fun answer =>
           and_then answer
             (outcome_bind
                (member (Some queryResult) (lit "source_documents"))
                (fun docs =>
              outcome_bind (render_list docs render_source) (fun sources =>
              Returned (Element {| rag_answer := answer;
                                   rag_sources := sources |})))))))
       (fun rag =>
     outcome_bind
       (when_type a (lit "search")
          (outcome_bind (member (Some queryResult) (lit "answer"))
             (fun answer =>
           and_then answer
             (outcome_bind
                (member (Some queryResult) (lit "search_results"))
                (fun results =>
              outcome_bind (render_list results render_search_result)
                (fun sources =>
              Returned (Element {| search_answer := answer;
                                   search_sources := sources |})))))))
       (fun search =>
     outcome_bind
       (when_type a (lit "ml") (Returned (Element queryResult)))
       (fun ml =>
     Returned (Element {| rag_block := rag; search_block := search;
                          ml_block := ml |}))))).

(** A value in the place of a child. React shows a string or a number as
    text and nothing for a boolean, [null] or [undefined]; it goes through
    the elements of an array; any other object it refuses. *)
Fixpoint valid_child (v : JSON) : bool :=
  match v with
  | JObject _ => false
  | JArray l => forallb valid_child l
  | _ => true
  end.

Definition valid_child_opt (v : option JSON) : bool :=
  match v with Some x => valid_child x | None => true end.

Definition valid_slot {A} (valid : A -> bool) (s : Slot A) : bool :=
  match s with Element a => valid a | Value v => valid_child_opt v end.

(** The children of the block: [{queryResult.answer}] in both kinds of
    answer, [{result.title}] in a search result; the text of a source and
    the text of [JSON.stringify] are strings. *)
Definition valid_rag (r : RagView) : bool :=
  valid_child_opt (rag_answer r) && valid_slot (fun _ => true) (rag_sources r).

Definition valid_search (s : SearchView) : bool :=
  valid_child_opt (search_answer s)
  && valid_slot (forallb (fun entry => valid_child_opt (snd entry)))
       (search_sources s).

Definition valid_response (v : ResponseView) : bool :=
  valid_slot valid_rag (rag_block v)
  && valid_slot valid_search (search_block v)
  && valid_slot (fun _ => true) (ml_block v).

(** The block on the page: the expression is evaluated, then React takes
    the elements and throws at a child it cannot show. *)
Definition render_response (a : Agent) (queryResult : JSON)
  : Outcome (Slot ResponseView) :=
  outcome_bind (response_elements a queryResult) (fun view =>
  if valid_slot valid_response view then Returned view
  else Thrown ReactError).

(** *** A visit to the page

    The hooks of the page and the handlers that are waiting for a reply.
    The user types, submits a form whose button is not disabled, and replies
    arrive in any order. *)

Definition Pending : Type := Reply -> Client -> Step unit.

Record Session : Type := {
  client : Client;
  in_flight : list (Request * Pending)
}.

Definition settle_step (s : Step unit) (waiting : list (Request * Pending))
  : Session :=
  match s with
  | Done _ c => {| client := c; in_flight := waiting |}
  | Await c req k => {| client := c; in_flight := waiting ++ [(req, k)] |}
  end.

Inductive Event : Type :=
| TypeQuery (text : str)
| SubmitQuery
| SubmitUpload
| Arrive (i : nat) (rp : Reply).

Definition fire (e : Event) (s : Session) : option Session :=
  let p := detailPage (client s) in
  match e with
  | TypeQuery text =>
      if page_shown p
      then Some (settle_step (setQuery text (client s)) (in_flight s))
      else None
  | SubmitQuery =>
      if page_shown p && negb (query_submit_disabled p)
      then Some (settle_step (handleQuerySubmit (client s)) (in_flight s))
      else None
  | SubmitUpload =>
      if upload_section_shown p && negb (upload_submit_disabled p)
      then Some (settle_step (handleFileUpload (client s)) (in_flight s))
      else None
  | Arrive i rp =>
      match in_flight s !! i with
      | Some (_, k) =>
          Some (settle_step (k rp (client s)) (delete i (in_flight s)))
      | None => None
      end
  end.

Fixpoint fire_all (es : list Event) (s : Session) : option Session :=
  match es with
  | [] => Some s
  | e :: r =>
      match fire e s with
      | Some s' => fire_all r s'
      | None => None
      end
  end.

(** The query hooks as [useState] makes them, and nothing in flight. *)
Definition fresh (s : Session) : Prop :=
  queryResult (detailPage (client s)) = JNull
  /\ queryError (detailPage (client s)) = None
  /\ queryLoading (detailPage (client s)) = false
  /\ in_flight s = [].

(** ** The rest of the pages *)

(** *** [AgentDetailPage]: choosing a file, deleting the agent *)

(** [handleFileChange]: [files] is [e.target.files], the list of the control
    or [null]. *)
Definition handleFileChange (files : option (list File)) : Async unit :=
  match files with
  | Some (f :: _) => setFile (Some f)
  | _ => ret tt
  end.

Definition put_error (c : Client) (v : option str) : Client :=
  let p := detailPage c in
  with_detailPage
    {| agentId := agentId p; agent := agent p; loading := loading p;
       error := v; query := query p; queryResult := queryResult p;
       queryLoading := queryLoading p; queryError := queryError p;
       file := file p; uploadResult := uploadResult p;
       uploadLoading := uploadLoading p; uploadError := uploadError p |} c.

Definition setError (v : option str) : Async unit :=
  modify (fun c => put_error c v).

(** [navigate(target)] of the router: the location changes; nothing is
    assigned to [window.location.href], so the journal does not grow. *)
Definition navigate (target : str) : Async unit :=
  modify (fun c => with_browser (localStorage c) target (journal c) c).

Definition AgentDetailPage_deleteAgent : Async unit :=
  c0 <- get ;;
  let agentId := agentId (detailPage c0) in
  ok <- window_confirm (lit "Are you sure you want to delete this agent?") ;;
  if negb ok then ret tt
  else
    try_catch
      (agentsService_deleteAgent agentId ;;;
       navigate (lit "/agents"))
      (fun err =>
         setError (Some (lit "Failed to delete agent. Please try again."))).

(** *** [AgentsPage]: what it shows

    The parts of the JSX that depend on the hooks. The type of an agent is
    shown in upper case and its creation time as a local date; the view
    keeps the string each is made from. *)

Record Card : Type := {
  card_key : str;
  card_name : str;
  card_badge : str;          (* the colour classes of the type badge *)
  card_type : str;           (* shown in upper case *)
  card_description : str;
  card_created_at : str;     (* shown as a local date *)
  card_details : str;        (* where View Details leads *)
  card_delete : str          (* what Delete passes to [deleteAgent] *)
}.

(** The nested conditional on [agent.type] in [className]. *)
Definition badge (type : str) : str :=
  if str_eqb type (lit "rag") then lit "bg-blue-100 text-blue-800"
  else if str_eqb type (lit "search") then lit "bg-green-100 text-green-800"
  else lit "bg-purple-100 text-purple-800".

(** [agent.description || 'No description provided.'] *)
Definition description_shown (d : option str) : str :=
  match d with
  | Some s => if nonempty s then s else lit "No description provided."
  | None => lit "No description provided."
  end.

Definition card (a : Agent) : Card :=
  {| card_key := agent_id a;
     card_name := agent_name a;
     card_badge := badge (agent_type a);
     card_type := agent_type a;
     card_description := description_shown (agent_description a);
     card_created_at := agent_created_at a;
     card_details := lit "/agents/" ++ agent_id a;
     card_delete := agent_id a |}.

(** The cards are the children of one element and carry the id of their
    agent as key. React tells the children of a list apart by their keys:
    while the keys differ the document shows the cards of the elements;
    when a key repeats, what it shows after an update is not given by the
    elements alone (a card may stay behind or be missing), and the body is
    [RepeatedKeys] then. *)
Inductive AgentsBody : Type :=
| NoAgentsYet
| Cards (cards : list Card)
| RepeatedKeys (cards : list Card).

Inductive AgentsView : Type :=
| AgentsSpinner
| AgentsListing (banner : option str) (body : AgentsBody).

(** [{error && (...)}]: the banner, when the hook holds a message. *)
Definition banner_of (e : option str) : option str :=
  if truthy_str e then e else None.

Definition AgentsPage_render (p : AgentsPageState) : AgentsView :=
  if agents_loading p then AgentsSpinner
  else
    AgentsListing (banner_of (agents_error p))
      (match agents p with
       | [] => NoAgentsYet
       | l =>
           if bool_decide (NoDup (List.map agent_id l))
           then Cards (List.map card l)
           else RepeatedKeys (List.map card l)
       end).

(** *** A visit to the list

    The user clicks Delete on a card that is there, and replies arrive in
    any order. No Delete button is ever disabled, so a deletion can start
    while another waits for its reply. *)
Inductive ListEvent : Type :=
| ClickDelete (agentId : str)
| ListArrive (i : nat) (rp : Reply).

Definition list_fire (e : ListEvent) (s : Session) : option Session :=
  let p := agentsPage (client s) in
  match e with
  | ClickDelete id =>
      if negb (agents_loading p)
         && bool_decide (id ∈ List.map agent_id (agents p))
      then Some (settle_step (AgentsPage_deleteAgent id (client s))
                   (in_flight s))
      else None
  | ListArrive i rp =>
      match in_flight s !! i with
      | Some (_, k) =>
          Some (settle_step (k rp (client s)) (delete i (in_flight s)))
      | None => None
      end
  end.

Fixpoint list_fire_all (es : list ListEvent) (s : Session)
  : option Session :=
  match es with
  | [] => Some s
  | e :: r =>
      match list_fire e s with
      | Some s' => list_fire_all r s'
      | None => None
      end
  end.

(** *** [DashboardPage]: what it shows

    The hooks of the page are its own; the view is a function of them and of
    the user that [useAuth] gives. *)

Record DashboardStats : Type := {
  total_agents : nat;
  rag_agents : nat;
  search_agents : nat;
  ml_agents : nat;
  recent_activity : str
}.

(** A card of the dashboard is one link to the agent. *)
Record DashboardCard : Type := {
  dashboard_key : str;
  dashboard_link : str;
  dashboard_name : str;
  dashboard_type : str;          (* shown in upper case *)
  dashboard_description : str;
  dashboard_created_at : str     (* shown as a local date *)
}.

Inductive DashboardBody : Type :=
| NoDashboardAgents
| DashboardCards (cards : list DashboardCard).

Record DashboardView : Type := {
  welcome_name : JSON;
  dashboard_banner : option str;
  dashboard_body : DashboardBody;
  dashboard_stats : DashboardStats
}.

(** [user?.username || 'User'] *)
Definition welcome (user : option JSON) : JSON :=
  match user with
  | None | Some JNull => JString (lit "User")
  | Some u =>
      match member (Some u) (lit "username") with
      | Returned (Some n) => if truthy n then n else JString (lit "User")
      | _ => JString (lit "User")
      end
  end.

(** [agents.filter(a => a.type === type).length] *)
Definition count_type (type : str) (agents : list Agent) : nat :=
  length (filter (fun a => agent_type a = type) agents).

Definition stats (agents : list Agent) : DashboardStats :=
  {| total_agents := length agents;
     rag_agents := count_type (lit "rag") agents;
     search_agents := count_type (lit "search") agents;
     ml_agents := count_type (lit "ml") agents;
     recent_activity :=
       if (0 <? length agents)%nat then lit "Your agents are ready to use."
       else lit "Create an agent to get started." |}.

Definition dashboard_card (a : Agent) : DashboardCard :=
  {| dashboard_key := agent_id a;
     dashboard_link := lit "/agents/" ++ agent_id a;
     dashboard_name := agent_name a;
     dashboard_type := agent_type a;
     dashboard_description := description_shown (agent_description a);
     dashboard_created_at := agent_created_at a |}.

(** [None] is the spinner. *)
Definition DashboardPage_render (user : option JSON) (agents : list Agent)
    (loading : bool) (error : option str) : option DashboardView :=
  if loading then None
  else
    Some {| welcome_name := welcome user;
            dashboard_banner := banner_of error;
            dashboard_body :=
              match agents with
              | [] => NoDashboardAgents
              | l => DashboardCards (List.map dashboard_card l)
              end;
            dashboard_stats := stats agents |}.

(** ** Vocabulary of the statements *)

(** [login] calls [axios.post] itself; every other operation calls the
    instance [api], the one that has the interceptors. *)
Definition uses_api (op : Operation) : bool :=
  match op with Login _ _ => false | _ => true end.

(** The transport fulfils the promise for this reply. *)
Definition fulfilled (rp : Reply) : bool :=
  match rp with
  | Replied r => ((200 <=? status r) && (status r <? 300))%N
  | NoReply => false
  end.

(** The error the transport throws for a reply it does not fulfil. *)
Definition error_of (rp : Reply) : Error :=
  AxiosError (match rp with Replied r => Some r | NoReply => None end).

Definition reply_data (rp : Reply) : JSON :=
  match rp with Replied r => response_data r | NoReply => JNull end.

(** The texts of the pages. *)
Definition query_failed : str :=
  lit "Failed to get a response from the agent.".

Definition upload_failed : str := lit "Failed to upload document.".

Definition delete_prompt : str :=
  lit "Are you sure you want to delete this agent?".

Definition delete_failed : str :=
  lit "Failed to delete agent. Please try again.".

(** *** The response block *)

(** [doc.content] is not a string: [doc] is not an object, or has no
    member [content], or has one of another kind. *)
Definition lacks_string_content (doc : JSON) : Prop :=
  forall s, member (Some doc) (lit "content") <> Returned (Some (JString s)).

(** *** Queries *)

(** The three query hooks. *)
Definition query_fields (c : Client) : JSON * option str * bool :=
  (queryResult (detailPage c), queryError (detailPage c),
   queryLoading (detailPage c)).

(** The client once a submission has raised the flag and reset both
    hooks. *)
Definition reset_for_query (c : Client) : Client :=
  put_queryError (put_queryResult (put_queryLoading c true) JNull) None.

(** The request of a query: [POST /agents/{id}/query] with the body
    [{query, parameters}]. *)
Definition is_query_request (id q : str) (parameters : JSON) (req : Request)
  : Prop :=
  method req = POST
  /\ url req = lit "/agents/" ++ id ++ lit "/query"
  /\ data req = JsonBody (JObject [(lit "query", JString q);
                                   (lit "parameters", parameters)]).

(** A handler waiting for a reply that, whatever the reply and whatever the
    client has become, ends there; it clears the loading flag and sets the
    result from a fulfilled reply, the error message from any other. *)
Definition settles_query (k : Pending) : Prop :=
  forall rp c', exists c'',
    k rp c' = Done (Returned tt) c'' /\
    query_fields c'' =
      if fulfilled rp
      then (reply_data rp, queryError (detailPage c'), false)
      else (queryResult (detailPage c'), Some query_failed, false).

(** A handler waiting for a reply that ends there and leaves the query
    hooks alone. *)
Definition leaves_query (k : Pending) : Prop :=
  forall rp c', exists c'',
    k rp c' = Done (Returned tt) c'' /\ query_fields c'' = query_fields c'.

(** A result and an error are never both there. *)
Definition never_both (c : Client) : Prop :=
  queryResult (detailPage c) <> JNull -> queryError (detailPage c) = None.

(** The invariant of a visit: no query is waiting, the flag is down and
    [never_both] holds; or exactly one query is waiting, the flag is up and
    both hooks are [null]. *)
Definition leaves (x : Request * Pending) : Prop := leaves_query (snd x).

Definition query_idle (s : Session) : Prop :=
  queryLoading (detailPage (client s)) = false
  /\ never_both (client s)
  /\ Forall leaves (in_flight s).

Definition query_busy (s : Session) : Prop :=
  query_fields (client s) = (JNull, None, true)
  /\ exists l1 req k l2,
       in_flight s = l1 ++ (req, k) :: l2
       /\ settles_query k /\ Forall leaves l1 /\ Forall leaves l2.

Definition query_invariant (s : Session) : Prop :=
  query_idle s \/ query_busy s.

(** *** Uploads *)

(** [agent.config.collection_name] of the hook [agent]. *)
Definition collection_name_of (a : option Agent) : Outcome (option JSON) :=
  match a with
  | Some x => member (agent_config x) (lit "collection_name")
  | None => Thrown TypeError
  end.

(** The client once an upload has raised its flag and reset its hooks. *)
Definition reset_for_upload (c : Client) : Client :=
  put_uploadError (put_uploadResult (put_uploadLoading c true) JNull) None.

(** The request of an upload: [POST /agents/{id}/upload], a multipart form
    with the file, and with the collection name when that is truthy. *)
Definition is_upload_request (id : str) (f : File) (name : option JSON)
    (req : Request) : Prop :=
  method req = POST
  /\ url req = lit "/agents/" ++ id ++ lit "/upload"
  /\ headers req !! lit "Content-Type" = Some (lit "multipart/form-data")
  /\ data req =
       FormData ((lit "file", FFile f) ::
                 match name with
                 | Some v =>
                     if truthy v then [(lit "collection_name", FText v)]
                     else []
                 | None => []
                 end).

(** An upload waiting for a reply ends on any reply with its flag down and
    the query hooks as they were. A fulfilled reply clears the file, keeps
    the data and empties the file control if that is in the document; any
    other leaves file and control and sets the error. *)
Definition settles_upload (k : Pending) : Prop :=
  forall rp c', exists c'',
    k rp c' = Done (Returned tt) c'' /\
    query_fields c'' = query_fields c' /\
    uploadLoading (detailPage c'') = false /\
    if fulfilled rp
    then file (detailPage c'') = None
         /\ uploadResult (detailPage c'') = reply_data rp
         /\ uploadError (detailPage c'') = uploadError (detailPage c')
         /\ file_upload_value c'' =
              (if upload_section_shown (detailPage c') then lit ""
               else file_upload_value c')
    else file (detailPage c'') = file (detailPage c')
         /\ uploadResult (detailPage c'') = uploadResult (detailPage c')
         /\ uploadError (detailPage c'') = Some upload_failed
         /\ file_upload_value c'' = file_upload_value c'.

(** *** Sample values *)

Definition sample_agent (type : string) : Agent :=
  {| agent_id := lit "7"; agent_name := lit "notes"; agent_type := lit type;
     agent_description := None;
     agent_config :=
       Some (JObject [(lit "collection_name", JString (lit "docs"))]);
     agent_created_at := lit "2024-01-01" |}.

Definition sample_page (type : string) (text : str) (f : option File)
  : AgentDetailState :=
  {| agentId := lit "7"; agent := Some (sample_agent type);
     loading := false; error := None; query := text; queryResult := JNull;
     queryLoading := false; queryError := None; file := f;
     uploadResult := JNull; uploadLoading := false; uploadError := None |}.

Definition sample_client (token : option str) (answer : bool)
    (p : AgentDetailState) : Client :=
  {| API_URL := Some (lit "http://localhost:8000");
     localStorage :=
       match token with
       | Some t => {[ lit "token" := t ]}
       | None => ∅
       end;
     location_href := lit "/agents";
     journal := [];
     confirm := fun _ => answer;
     file_upload_value := lit "C:\fakepath\notes.txt";
     agentsPage :=
       {| agents := [sample_agent "rag"; sample_agent "ml"];
          agents_loading := false; agents_error := None |};
     detailPage := p |}.

Definition sample_file : File :=
  {| file_name := lit "notes.txt"; file_data := lit "hello" |}.

Definition answers (code : N) (body : JSON) : Request -> Reply :=
  fun _ => Replied {| status := code; response_data := body |}.

Definition sample_visit : list Event :=
  [TypeQuery (lit "what is new?"); SubmitQuery;
   Arrive 0 (Replied {| status := 500; response_data := JNull |});
   SubmitQuery;
   Arrive 0 (Replied {| status := 200;
                        response_data := JString (lit "nothing") |})].

Definition sample_session : Session :=
  {| client := sample_client None true (sample_page "rag" [] None);
     in_flight := [] |}.

Definition sample_end : Session :=
  match fire_all sample_visit sample_session with
  | Some s => s
  | None => sample_session
  end.

(** *** More vocabulary *)

(** The client after the response interceptor has handled a 401. *)
Definition end_session (c : Client) : Client :=
  with_browser (delete (lit "token") (localStorage c)) (lit "/login")
    (journal c ++ [RemoveItem (lit "token"); SetHref (lit "/login")]) c.

(** The client after the response interceptor has seen this reply. *)
Definition after_reply (rp : Reply) (c : Client) : Client :=
  if is_401 (error_of rp) then end_session c else c.

(** The client once a query has ended on this reply. *)
Definition query_settled (rp : Reply) (c : Client) : Client :=
  if fulfilled rp
  then put_queryLoading (put_queryResult c (reply_data rp)) false
  else put_queryLoading
         (put_queryError (after_reply rp c) (Some query_failed)) false.

(** The client once a submission has failed before any request. *)
Definition query_refused (c : Client) : Client :=
  put_queryLoading
    (put_queryError (put_queryResult c JNull) (Some query_failed)) false.

(** The client once an upload has ended on this reply. *)
Definition upload_settled (rp : Reply) (c : Client) : Client :=
  if fulfilled rp
  then put_uploadLoading
         ((if upload_section_shown (detailPage c)
           then with_file_upload_value (lit "") else fun x => x)
            (put_file (put_uploadResult c (reply_data rp)) None))
         false
  else put_uploadLoading
         (put_uploadError (after_reply rp c) (Some upload_failed)) false.

(** The hooks of the list page with one of them replaced. *)
Definition put_agents (c : Client) (l : list Agent) : Client :=
  with_agentsPage
    {| agents := l; agents_loading := agents_loading (agentsPage c);
       agents_error := agents_error (agentsPage c) |} c.

Definition put_agents_error (c : Client) (e : option str) : Client :=
  with_agentsPage
    {| agents := agents (agentsPage c);
       agents_loading := agents_loading (agentsPage c);
       agents_error := e |} c.

(** Deletions from the list one after the other, each against its own
    network. *)
Fixpoint delete_each (attempts : list (str * (Request -> Reply)))
    (c : Client) : Client :=
  match attempts with
  | [] => c
  | (id, net) :: rest =>
      delete_each rest (after (run net (AgentsPage_deleteAgent id c)))
  end.

(** The type is one of the three the dashboard counts. *)
Definition counted_type (a : Agent) : Prop :=
  agent_type a = lit "rag" \/ agent_type a = lit "search"
  \/ agent_type a = lit "ml".

(** [v.name] of a value that is not [null]: the member, or [undefined]. *)
Definition field (v : JSON) (name : str) : option JSON :=
  match v with JObject ms => assoc name ms | _ => None end.

(** [user?.username] *)
Definition username_of (user : option JSON) : option JSON :=
  match user with Some u => field u (lit "username") | None => None end.

(** What React puts in the document for a value in the place of a child:
    the text of a string, the digits of a number, nothing for a boolean or
    [null], the elements of an array in turn; any other object it refuses
    with an error. *)
#[warnings="-register-all"]
Inductive Shown : Type :=
| ShownText (s : str)
| ShownNumber (neg : bool) (mant : N) (exp10 : Z)
| ShownNothing
| ShownEach (parts : list Shown)
| Refused.

Fixpoint show_child (v : JSON) : Shown :=
  match v with
  | JString s => ShownText s
  | JNumber neg m e => ShownNumber neg m e
  | JNull | JBool _ => ShownNothing
  | JArray l => ShownEach (List.map show_child l)
  | JObject _ => Refused
  end.

Definition is_element {A} (s : Slot A) : bool :=
  match s with Element _ => true | Value _ => false end.

(** [doc.content] is a string. *)
Definition has_string_content (doc : JSON) : Prop :=
  exists s, member (Some doc) (lit "content") = Returned (Some (JString s)).

(** The hooks of the query form put back as they were in [c]. *)
Definition restore_query (c c' : Client) : Client :=
  put_queryLoading
    (put_queryError (put_queryResult c' (queryResult (detailPage c)))
       (queryError (detailPage c)))
    (queryLoading (detailPage c)).

(** The client where the synchronous part of a handler ends. *)
Definition settled_now {A} (s : Step A) : Client :=
  match s with Done _ c => c | Await c _ _ => c end.

(** Changes of the file control, one after the other. *)
Fixpoint choose_each (changes : list (option (list File))) (c : Client)
  : Client :=
  match changes with
  | [] => c
  | files :: rest => choose_each rest (settled_now (handleFileChange files c))
  end.

(** An empty selection: the dialog was cancelled. *)
Definition cancelled (files : option (list File)) : Prop :=
  files = None \/ files = Some [].

(** The hooks of the upload form and the file control put back as they were
    in [c]. *)
Definition restore_upload (c c' : Client) : Client :=
  put_uploadLoading
    (put_uploadError
       (put_uploadResult
          (put_file (with_file_upload_value (file_upload_value c) c')
             (file (detailPage c)))
          (uploadResult (detailPage c)))
       (uploadError (detailPage c)))
    (uploadLoading (detailPage c)).

(** The cards a view shows, where the view says so. *)
Definition cards_of (v : AgentsView) : list Card :=
  match v with
  | AgentsListing _ (Cards l) => l
  | _ => []
  end.

(** A list of two agents, 7 and 8, and nothing in flight. *)
Definition agent_numbered (id type : string) : Agent :=
  {| agent_id := lit id; agent_name := lit "notes"; agent_type := lit type;
     agent_description := None; agent_config := None;
     agent_created_at := lit "2024-01-01" |}.

Definition sample_list : Session :=
  {| client :=
       put_agents (sample_client None true (sample_page "rag" [] None))
         [agent_numbered "7" "rag"; agent_numbered "8" "ml"];
     in_flight := [] |}.

Definition no_content : Reply :=
  Replied {| status := 204; response_data := JNull |}.

(** * Properties *)

(** ** Tactics *)

(** Unfold a handler as far as the reply of the network. *)
Ltac step_through := cbn -[lit trim JSON_parse member].

(** Name the request the handler sends and split on the reply to it. *)
Ltac on_reply net rsp :=
  match goal with |- context [net ?r] => exists r end;
  destruct (net _) as [rsp|]; step_through;
  [destruct ((200 <=? status rsp) && (status rsp <? 300))%N eqn:?;
   step_through |].

Lemma journal_two (j : list Effect) (a b : Effect) :
  (j ++ [a]) ++ [b] = j ++ [a; b].
Proof. by rewrite <- app_assoc. Qed.

(** ** The API client *)

(** C1 (amended). Every operation sends one request. A reply the transport
    fulfils returns and changes nothing. Any other reply, or none, throws
    the error of the transport as it is. A 401 to an operation on the
    instance [api] (every operation but [login]) removes the stored token,
    once, and then sets the location to the login view; a 401 to [login],
    which calls axios itself, and every other failure leave the client as
    it was. *)
Theorem unauthorized_ends_session (op : Operation) (net : Request -> Reply)
    (c : Client) :
  let r := run net (perform op c) in
  exists req,
    sent r = [req] /\
    if fulfilled (net req)
    then (exists v, outcome r = Returned v) /\ after r = c
    else outcome r = Thrown (error_of (net req))
         /\ if is_401 (error_of (net req)) && uses_api op
            then journal (after r) =
                   journal c ++ [RemoveItem (lit "token");
                                 SetHref (lit "/login")]
                 /\ localStorage (after r) =
                    delete (lit "token") (localStorage c)
                 /\ location_href (after r) = lit "/login"
            else after r = c.
Proof.
  destruct op; step_through;
    try (destruct (truthy_str (localStorage c !! lit "token"));
         step_through);
    try (destruct (truthy _); step_through);
    on_reply net rsp; eauto;
    try (rewrite andb_false_r; by auto);
    rewrite andb_true_r;
    destruct (status rsp =? 401)%N; step_through; auto;
    by rewrite journal_two.
Qed.

(** Against C1 as it was stated: [login] is answered 401 while a token is
    stored; the token stays, nothing is removed, the location stays. *)
Lemma login_unauthorized_keeps_session :
  let c := sample_client (Some (lit "secret")) true
             (sample_page "rag" [] None) in
  let net := answers 401 JNull in
  let r := run net (perform (Login (lit "ann") (lit "guess")) c) in
  exists req,
    sent r = [req]
    /\ net req = Replied {| status := 401; response_data := JNull |}
    /\ localStorage (after r) !! lit "token" = Some (lit "secret")
    /\ journal (after r) = []
    /\ location_href (after r) = lit "/agents".
Proof. eexists. split_and!; by vm_compute. Qed.

(** C2 (amended). The request of every operation but [login] carries
    [Authorization: Bearer <token>] when a token that is not empty is stored
    at that time, and no Authorization header when none is stored or the
    stored one is empty; the request of [login] never carries one. *)
Theorem authorization_header (op : Operation) (net : Request -> Reply)
    (c : Client) :
  exists req,
    sent (run net (perform op c)) = [req] /\
    headers req !! lit "Authorization" =
      if uses_api op
      then match localStorage c !! lit "token" with
           | Some t => if nonempty t then Some (lit "Bearer " ++ t) else None
           | None => None
           end
      else None.
Proof.
  destruct op; step_through;
    try (destruct (localStorage c !! lit "token") as [t|]; step_through;
         [destruct (nonempty t); step_through |]);
    try (destruct (truthy _); step_through);
    on_reply net rsp;
    try (destruct (status rsp =? 401)%N; step_through);
    (split; [reflexivity |]);
    first [ by apply lookup_insert_eq | by vm_compute ].
Qed.

(** Against C2 as it was stated: a token is stored and the request of
    [login] has no Authorization header; and an empty token is stored and
    the request of [getAgents] has none either. *)
Lemma stored_token_not_attached :
  let c := sample_client (Some (lit "secret")) true
             (sample_page "rag" [] None) in
  let r := run (answers 200 JNull)
               (perform (Login (lit "ann") (lit "pass")) c) in
  let c0 := sample_client (Some []) true (sample_page "rag" [] None) in
  let r0 := run (answers 200 JNull) (perform GetAgents c0) in
  (localStorage c !! lit "token" = Some (lit "secret")
   /\ exists req, sent r = [req] /\ headers req !! lit "Authorization" = None)
  /\ (localStorage c0 !! lit "token" = Some []
      /\ exists req,
           sent r0 = [req] /\ headers req !! lit "Authorization" = None).
Proof.
  split; (split; [by vm_compute |]); eexists; split; by vm_compute.
Qed.

(** ** [JSON.parse] accepts no blank text *)

Lemma trim_start_nil (s : str) :
  trim_start s = [] -> forallb is_white s = true.
Proof.
  induction s as [|c r IH]; cbn; [done |].
  destruct (is_white c); [auto | discriminate].
Qed.

Lemma trim_start_white (s : str) :
  forallb is_white (trim_start s) = true -> forallb is_white s = true.
Proof.
  induction s as [|c r IH]; cbn; [done |].
  destruct (is_white c) eqn:E; cbn; [auto |].
  by rewrite E.
Qed.

Lemma forallb_rev {A} (f : A -> bool) (l : list A) :
  forallb f (rev l) = forallb f l.
Proof.
  induction l as [|x l IH]; cbn; [done |].
  rewrite forallb_app, IH. cbn. rewrite andb_true_r. apply andb_comm.
Qed.

Lemma trim_blank (s : str) :
  nonempty (trim s) = false -> forallb is_white s = true.
Proof.
  unfold trim. intros H.
  destruct (rev (trim_start (rev (trim_start s)))) eqn:E; [| discriminate].
  apply (f_equal (@rev N)) in E. rewrite rev_involutive in E. cbn in E.
  apply trim_start_nil in E. rewrite forallb_rev in E.
  by apply trim_start_white.
Qed.

(** A white code unit is white space of JSON too, or it starts nothing. *)
Lemma lex_start_white (c : N) :
  is_white c = true ->
  lex_start c = Some (LStart, []) \/ lex_start c = None.
Proof.
  intros H. unfold lex_start.
  destruct ((c =? 32) || (c =? 9) || (c =? 10) || (c =? 13))%N; [by left |].
  repeat match goal with
  | |- context [if (c =? ?k)%N then _ else _] =>
      destruct (N.eqb_spec c k) as [->|_]; [by vm_compute in H |]
  end.
  destruct (is_digit c) eqn:D; [| by right].
  unfold is_white, is_digit in *.
  rewrite ?orb_true_iff, ?andb_true_iff in *.
  rewrite ?N.eqb_eq, ?N.leb_le in *. lia.
Qed.

Lemma lex_blank (s : str) :
  forallb is_white s = true ->
  lex LStart s = Some [] \/ lex LStart s = None.
Proof.
  induction s as [|c r IH]; cbn [forallb lex lex_step]; [by left |].
  intros [Hc Hr]%andb_true_iff.
  destruct (lex_start_white c Hc) as [-> | ->]; [| by right].
  destruct (IH Hr) as [-> | ->]; [by left | by right].
Qed.

Lemma JSON_parse_not_blank (s : str) (v : JSON) :
  JSON_parse s = Some v -> nonempty (trim s) = true.
Proof.
  intros H. destruct (nonempty (trim s)) eqn:E; [done |].
  apply trim_blank, lex_blank in E. unfold JSON_parse in H.
  by destruct E as [E | E]; rewrite E in H.
Qed.

(** *** The parser on some texts *)

Example JSON_parse_object :
  JSON_parse (litq " {'a': [1, 2.5e-3, true, null, 'xA'], 'a': -0} ")
  = Some (JObject [(lit "a", JNumber true 0 0)]).
Proof. reflexivity. Qed.

Example JSON_parse_nested :
  JSON_parse (litq "{'b': {}, 'c': ['\n', 10]}")
  = Some (JObject [(lit "b", JObject []);
                   (lit "c", JArray [JString [10%N]; JNumber false 10 0])]).
Proof. reflexivity. Qed.

Example JSON_parse_rejects :
  List.map JSON_parse
    [lit "abc"; lit "[1,]"; lit "01"; lit "1 2"; lit ""; litq "{'a' 1}";
     litq "{a: 1}"; lit "1."; lit "tru"; litq "'open"]
  = [None; None; None; None; None; None; None; None; None; None].
Proof. reflexivity. Qed.

Example trim_both_ends : trim (lit "  a b  ") = lit "a b".
Proof. reflexivity. Qed.

(** ** The handlers of the detail page, step by step *)

Lemma str_eqb_true (a b : str) : a = b -> str_eqb a b = true.
Proof. intros. by apply bool_decide_eq_true_2. Qed.

Lemma str_eqb_false (a b : str) : a <> b -> str_eqb a b = false.
Proof. intros. by apply bool_decide_eq_false_2. Qed.

(** The continuation of a query ends on any reply. *)
Lemma query_continuation_settles (k : Pending) :
  (forall rp c',
     k rp c' =
     step_finally
       (step_catch
          (step_bind
             (step_catch
                (step_bind
                   (step_then (settle rp c') response_interceptor
                      response_error_interceptor)
                   (fun response => ret (response_data response)))
                rethrow)
             (fun result => setQueryResult result))
          (fun _ => setQueryError (Some query_failed)))
       (setQueryLoading false)) ->
  settles_query k.
Proof.
  intros Hk rp c'. rewrite Hk. destruct rp as [r|]; step_through.
  - destruct ((200 <=? status r) && (status r <? 300))%N; step_through.
    + by eexists.
    + destruct (status r =? 401)%N; step_through; by eexists.
  - by eexists.
Qed.

Lemma handleQuerySubmit_blank (c : Client) :
  nonempty (trim (query (detailPage c))) = false ->
  handleQuerySubmit c = Done (Returned tt) c.
Proof. intros H. unfold handleQuerySubmit. step_through. by rewrite H. Qed.

Lemma handleQuerySubmit_invalid (c : Client) (a : Agent) :
  nonempty (trim (query (detailPage c))) = true ->
  agent (detailPage c) = Some a ->
  agent_type a = lit "ml" ->
  JSON_parse (query (detailPage c)) = None ->
  handleQuerySubmit c =
  Done (Returned tt)
    (put_queryLoading
       (put_queryError (put_queryResult c JNull) (Some query_failed)) false).
Proof.
  intros Hq Ha Hml Hp. unfold handleQuerySubmit. step_through.
  rewrite Hq, Ha. step_through. rewrite str_eqb_true, Hp by done.
  reflexivity.
Qed.

Lemma handleQuerySubmit_valid (c : Client) (a : Agent) (parsed : JSON) :
  agent (detailPage c) = Some a ->
  agent_type a = lit "ml" ->
  JSON_parse (query (detailPage c)) = Some parsed ->
  exists req k,
    handleQuerySubmit c = Await (reset_for_query c) req k
    /\ is_query_request (agentId (detailPage c)) (lit "")
         (JObject [(lit "data", JSON_stringify parsed)]) req
    /\ settles_query k.
Proof.
  intros Ha Hml Hp. unfold handleQuerySubmit. step_through.
  rewrite (JSON_parse_not_blank _ _ Hp), Ha. step_through.
  rewrite str_eqb_true, Hp by done. step_through.
  destruct (truthy_str _); step_through;
    (do 2 eexists; split; [reflexivity |]; split; [done |]);
    by apply query_continuation_settles.
Qed.

Lemma handleQuerySubmit_text (c : Client) (a : Agent) :
  nonempty (trim (query (detailPage c))) = true ->
  agent (detailPage c) = Some a ->
  agent_type a <> lit "ml" ->
  exists req k,
    handleQuerySubmit c = Await (reset_for_query c) req k
    /\ is_query_request (agentId (detailPage c)) (query (detailPage c))
         (JObject []) req
    /\ settles_query k.
Proof.
  intros Hq Ha Hml. unfold handleQuerySubmit. step_through.
  rewrite Hq, Ha. step_through. rewrite str_eqb_false by done. step_through.
  destruct (truthy_str _); step_through;
    (do 2 eexists; split; [reflexivity |]; split; [done |]);
    by apply query_continuation_settles.
Qed.

Lemma handleQuerySubmit_no_agent (c : Client) :
  nonempty (trim (query (detailPage c))) = true ->
  agent (detailPage c) = None ->
  handleQuerySubmit c =
  Done (Returned tt)
    (put_queryLoading
       (put_queryError (put_queryResult c JNull) (Some query_failed)) false).
Proof.
  intros Hq Ha. unfold handleQuerySubmit. step_through.
  rewrite Hq, Ha. reflexivity.
Qed.

Lemma upload_continuation_settles (k : Pending) :
  (forall rp c',
     k rp c' =
     step_finally
       (step_catch
          (step_bind
             (step_catch
                (step_bind
                   (step_then (settle rp c') response_interceptor
                      response_error_interceptor)
                   (fun response => ret (response_data response)))
                rethrow)
             (fun result =>
                setUploadResult result ;;; setFile None ;;;
                reset_file_input)%async)
          (fun _ => setUploadError (Some upload_failed)))
       (setUploadLoading false)) ->
  settles_upload k.
Proof.
  intros Hk rp c'. rewrite Hk. destruct rp as [r|]; step_through.
  - destruct ((200 <=? status r) && (status r <? 300))%N; step_through.
    + unfold reset_file_input, bind, get. step_through.
      change (upload_section_shown _)
        with (upload_section_shown (detailPage c')).
      destruct (upload_section_shown (detailPage c')); step_through;
        by eexists.
    + destruct (status r =? 401)%N; step_through; by eexists.
  - by eexists.
Qed.

Lemma handleFileUpload_no_file (c : Client) :
  file (detailPage c) = None ->
  handleFileUpload c = Done (Returned tt) c.
Proof. intros H. unfold handleFileUpload. step_through. by rewrite H. Qed.

Lemma handleFileUpload_throws (c : Client) (f : File) (e : Error) :
  file (detailPage c) = Some f ->
  collection_name_of (agent (detailPage c)) = Thrown e ->
  handleFileUpload c =
  Done (Returned tt)
    (put_uploadLoading
       (put_uploadError (put_uploadResult c JNull) (Some upload_failed))
       false).
Proof.
  intros Hf Hm. unfold handleFileUpload. step_through. rewrite Hf.
  destruct (agent (detailPage c)) as [a|]; unfold collection_name_of in Hm;
    cbn -[lit member]; [rewrite Hm |]; reflexivity.
Qed.

Lemma handleFileUpload_sends (c : Client) (f : File) (name : option JSON) :
  file (detailPage c) = Some f ->
  collection_name_of (agent (detailPage c)) = Returned name ->
  exists req k,
    handleFileUpload c = Await (reset_for_upload c) req k
    /\ is_upload_request (agentId (detailPage c)) f name req
    /\ settles_upload k.
Proof.
  intros Hf Hm. unfold handleFileUpload. step_through. rewrite Hf.
  destruct (agent (detailPage c)) as [a|]; unfold collection_name_of in Hm;
    [| done].
  cbn -[lit member]. rewrite Hm. unfold is_upload_request. step_through.
  destruct (truthy_str _); step_through;
    (destruct name as [v|]; step_through; [destruct (truthy v) |]);
    step_through;
    (do 2 eexists; split; [reflexivity |];
     split; [repeat split; by vm_compute |]);
    by apply upload_continuation_settles.
Qed.

(** ** A visit keeps its invariant *)

Lemma settles_upload_leaves (k : Pending) : settles_upload k -> leaves_query k.
Proof.
  intros H rp c'. destruct (H rp c') as (c'' & Hk & Hq & _). eauto.
Qed.

(** What a submission of the query form does, in any state. *)
Lemma handleQuerySubmit_step (c : Client) :
  handleQuerySubmit c = Done (Returned tt) c
  \/ (exists c', handleQuerySubmit c = Done (Returned tt) c'
                 /\ query_fields c' = (JNull, Some query_failed, false))
  \/ (exists req k, handleQuerySubmit c = Await (reset_for_query c) req k
                    /\ settles_query k).
Proof.
  destruct (nonempty (trim (query (detailPage c)))) eqn:Hq;
    [| left; by apply handleQuerySubmit_blank].
  right. destruct (agent (detailPage c)) as [a|] eqn:Ha;
    [| left; eexists; split; [by apply handleQuerySubmit_no_agent | done]].
  destruct (decide (agent_type a = lit "ml")) as [Hml | Hml].
  - destruct (JSON_parse (query (detailPage c))) as [v|] eqn:Hp.
    + right. destruct (handleQuerySubmit_valid c a v) as (req & k & ? & _ & ?);
        eauto.
    + left. eexists. split; [by eapply handleQuerySubmit_invalid | done].
  - right. destruct (handleQuerySubmit_text c a) as (req & k & ? & _ & ?);
      eauto.
Qed.

Lemma handleFileUpload_step (c : Client) :
  (exists c', handleFileUpload c = Done (Returned tt) c'
              /\ query_fields c' = query_fields c)
  \/ (exists c1 req k, handleFileUpload c = Await c1 req k
                       /\ query_fields c1 = query_fields c
                       /\ leaves_query k).
Proof.
  destruct (file (detailPage c)) as [f|] eqn:Hf;
    [| left; eexists; split; [by apply handleFileUpload_no_file | done]].
  destruct (collection_name_of (agent (detailPage c))) as [name|e] eqn:Hm.
  - right. destruct (handleFileUpload_sends c f name) as (req & k & ? & _ & ?);
      [done.. |].
    do 3 eexists. split; [eassumption |].
    split; [done | by apply settles_upload_leaves].
  - left. eexists. split; [by eapply handleFileUpload_throws | done].
Qed.

(** Taking one waiting handler out of the list, around the one that is
    special. *)
Lemma pick_in_flight {A} (P : A -> Prop) (l1 l2 : list A) (x y : A) (i : nat) :
  Forall P l1 -> Forall P l2 ->
  (l1 ++ x :: l2) !! i = Some y ->
  (y = x /\ Forall P (delete i (l1 ++ x :: l2)))
  \/ (P y /\ exists l1' l2',
        delete i (l1 ++ x :: l2) = l1' ++ x :: l2'
        /\ Forall P l1' /\ Forall P l2').
Proof.
  intros H1 H2. revert i. induction H1 as [|z l1 Hz H1 IH]; intros i Hi.
  - destruct i as [|i]; cbn in *.
    + left. split; [congruence | done].
    + right. split; [by eapply Forall_lookup_1 |].
      exists [], (delete i l2). split; [done |].
      split; [done | by apply Forall_delete].
  - destruct i as [|i]; cbn in *.
    + right. split; [congruence |]. by exists l1, l2.
    + destruct (IH i Hi) as [[-> HF] | [Hy (l1' & l2' & E & F1 & F2)]].
      * left. split; [done | by constructor].
      * right. split; [done |]. exists (z :: l1'), l2'.
        split; [cbn; f_equal; exact E |]. split; [by constructor | done].
Qed.

Lemma query_fields_put_query (c : Client) (text : str) :
  query_fields (put_query c text) = query_fields c.
Proof. done. Qed.

Lemma idle_of_fields (c : Client) (l : list (Request * Pending))
    (r : JSON) (e : option str) :
  query_fields c = (r, e, false) ->
  (r <> JNull -> e = None) ->
  Forall leaves l ->
  query_idle {| client := c; in_flight := l |}.
Proof.
  unfold query_fields. intros [= Hr He Hl] H F. unfold query_idle, never_both.
  cbn. by rewrite Hr, He.
Qed.

Lemma fire_keeps_invariant (e : Event) (s s' : Session) :
  query_invariant s -> fire e s = Some s' -> query_invariant s'.
Proof.
  destruct s as [c l]. unfold fire. cbn [client in_flight].
  intros Inv H.
  unfold query_invariant, query_idle, query_busy in Inv.
  cbn [client in_flight] in Inv.
  destruct e as [text | | | i rp].
  - (* typing *)
    destruct (page_shown _); [| done]. injection H as <-. cbn.
    destruct Inv as [(Hl & Hn & F) | (Hq & D)]; [left | right]; done.
  - (* the query form *)
    destruct (page_shown _ && _) eqn:G; [| done]. injection H as <-.
    apply andb_true_iff in G as [_ G]. apply negb_true_iff in G.
    unfold query_submit_disabled in G.
    destruct Inv as [(Hl & Hn & F) | (Hq & D)];
      [| unfold query_fields in Hq; congruence].
    destruct (handleQuerySubmit_step c)
      as [-> | [(c' & -> & Hc') | (req & k & -> & Hk)]]; cbn.
    + by left.
    + left. by eapply idle_of_fields.
    + right. split; [done |]. exists l, req, k, []. by rewrite Forall_nil.
  - (* the upload form *)
    destruct (upload_section_shown _ && _); [| done]. injection H as <-.
    destruct (handleFileUpload_step c)
      as [(c' & -> & Hc') | (c1 & req & k & -> & Hc1 & Hk)]; cbn.
    + destruct Inv as [(Hl & Hn & F) | (Hq & D)]; [left | right].
      * unfold query_idle, never_both, query_fields in *. cbn.
        injection Hc' as -> -> ->. done.
      * split; [cbn; congruence | done].
    + destruct Inv
        as [(Hl & Hn & F) | (Hq & l1 & rq & kq & l2 & -> & ? & ? & ?)];
        [left | right].
      * unfold query_idle, never_both, query_fields in *. cbn.
        injection Hc1 as -> -> ->. split; [done |]. split; [done |].
        apply Forall_app. split; [done |]. by constructor.
      * split; [cbn; congruence |]. exists l1, rq, kq, (l2 ++ [(req, k)]).
        rewrite <- app_assoc. cbn. repeat split; try done.
        apply Forall_app. split; [done |]. by constructor.
  - (* a reply *)
    destruct (l !! i) as [[req k]|] eqn:Hi; [| done]. injection H as <-.
    destruct Inv
      as [(Hl & Hn & F) | (Hq & l1 & rq & kq & l2 & -> & Hs & F1 & F2)].
    + pose proof (Forall_lookup_1 _ _ _ _ F Hi) as Hk.
      unfold leaves in Hk. cbn in Hk.
      destruct (Hk rp c) as (c'' & -> & Hc''). cbn. left.
      unfold query_idle, never_both, query_fields in *. cbn.
      injection Hc'' as -> -> ->. repeat split; try done.
      by apply Forall_delete.
    + destruct (pick_in_flight leaves l1 l2 (rq, kq) (req, k) i F1 F2 Hi)
        as [[[= -> ->] HF] | [Hk (l1' & l2' & E & F1' & F2')]].
      * destruct (Hs rp c) as (c'' & -> & Hc''). cbn. left.
        unfold query_fields in Hq. injection Hq as Hq1 Hq2 Hq3.
        rewrite Hq1, Hq2 in Hc''.
        destruct (fulfilled rp); eapply idle_of_fields; try eassumption; done.
      * unfold leaves in Hk. cbn in Hk.
        destruct (Hk rp c) as (c'' & -> & Hc''). cbn. right.
        split; [cbn; congruence |]. cbn. rewrite E. by exists l1', rq, kq, l2'.
Qed.

Lemma fire_all_keeps_invariant (es : list Event) (s s' : Session) :
  query_invariant s -> fire_all es s = Some s' -> query_invariant s'.
Proof.
  revert s. induction es as [|e es IH]; cbn; intros s Inv H.
  - by injection H as <-.
  - destruct (fire e s) as [s1|] eqn:E; [| done].
    eapply IH; [| eassumption]. by eapply fire_keeps_invariant.
Qed.

Lemma fresh_invariant (s : Session) : fresh s -> query_invariant s.
Proof.
  intros (Hr & He & Hl & Hf). left. unfold query_idle, never_both.
  rewrite Hf. by repeat split.
Qed.

Lemma invariant_never_both (s : Session) :
  query_invariant s -> never_both (client s).
Proof.
  intros [(_ & H & _) | (Hq & _)]; [done |].
  unfold never_both, query_fields in *. by injection Hq as -> -> _.
Qed.

(** ** Runs of the handlers *)

Lemma run_done {A} (net : Request -> Reply) (s : Step A) (o : Outcome A)
    (c : Client) :
  s = Done o c -> run net s = {| outcome := o; after := c; sent := [] |}.
Proof. by intros ->. Qed.

Lemma run_once {A} (net : Request -> Reply) (s : Step A) (c1 c2 : Client)
    (req : Request) (k : Reply -> Client -> Step A) (o : Outcome A) :
  s = Await c1 req k ->
  k (net req) c1 = Done o c2 ->
  run net s = {| outcome := o; after := c2; sent := [req] |}.
Proof. intros -> H. cbn. by rewrite H. Qed.

(** A submission that sent a request and got no fulfilled reply shows the
    one message there is. *)
Lemma failed_request_message (c : Client) (net : Request -> Reply)
    (req : Request) :
  sent (run net (handleQuerySubmit c)) = [req] ->
  fulfilled (net req) = false ->
  queryError (detailPage (after (run net (handleQuerySubmit c))))
  = Some query_failed.
Proof.
  intros Hs Hf.
  destruct (handleQuerySubmit_step c)
    as [E | [(c' & E & _) | (rq & k & E & Hk)]].
  - by rewrite (run_done net _ _ _ E) in Hs.
  - by rewrite (run_done net _ _ _ E) in Hs.
  - destruct (Hk (net rq) (reset_for_query c)) as (c'' & Ek & Hq).
    rewrite (run_once net _ _ _ _ _ _ E Ek) in *. cbn in *.
    injection Hs as ->. unfold query_fields in Hq.
    rewrite Hf in Hq. by injection Hq.
Qed.

(** C3 (amended). For an agent of type ml, text that is not valid JSON never
    reaches the network: the handler ends without a request. Text that is
    not blank leaves the message "Failed to get a response from the agent."
    in [queryError], with no result and the loading flag down, and that is
    the very message a request that failed leaves; blank text changes
    nothing. *)
Theorem malformed_input_stops_before_network (c : Client) (a : Agent) :
  agent (detailPage c) = Some a ->
  agent_type a = lit "ml" ->
  JSON_parse (query (detailPage c)) = None ->
  handleQuerySubmit c =
    Done (Returned tt)
      (if nonempty (trim (query (detailPage c)))
       then put_queryLoading
              (put_queryError (put_queryResult c JNull) (Some query_failed))
              false
       else c)
  /\ (forall net, sent (run net (handleQuerySubmit c)) = [])
  /\ (forall c2 net req,
        sent (run net (handleQuerySubmit c2)) = [req] ->
        fulfilled (net req) = false ->
        queryError (detailPage (after (run net (handleQuerySubmit c2))))
        = Some query_failed).
Proof.
  intros Ha Hml Hp.
  assert (handleQuerySubmit c =
    Done (Returned tt)
      (if nonempty (trim (query (detailPage c)))
       then put_queryLoading
              (put_queryError (put_queryResult c JNull) (Some query_failed))
              false
       else c)) as E.
  { destruct (nonempty (trim (query (detailPage c)))) eqn:Hq.
    - by eapply handleQuerySubmit_invalid.
    - by apply handleQuerySubmit_blank. }
  split; [exact E |]. split.
  - intros net. by rewrite (run_done net _ _ _ E).
  - apply failed_request_message.
Qed.

(** The text abc for an ml agent. *)
Lemma malformed_input_stops_before_network_witness :
  let c := sample_client None true (sample_page "ml" (lit "abc") None) in
  handleQuerySubmit c =
    Done (Returned tt)
      (put_queryLoading
         (put_queryError (put_queryResult c JNull) (Some query_failed)) false)
  /\ sent (run (answers 200 JNull) (handleQuerySubmit c)) = [].
Proof.
  intros c.
  destruct (malformed_input_stops_before_network c (sample_agent "ml"))
    as (E & S & _); [reflexivity | reflexivity | reflexivity |].
  split; [exact E | apply S].
Defined.

(** Against C3 as it was stated: text that is no JSON and a request that
    got no reply leave the same error, so the first is not told apart from
    the second; and blank text, which is no JSON either, leaves no error at
    all. *)
Lemma malformed_input_reported_as_request_failure :
  let bad := sample_client None true (sample_page "ml" (lit "abc") None) in
  let good := sample_client None true (sample_page "ml" (lit "{}") None) in
  let blank := sample_client None true (sample_page "ml" (lit "  ") None) in
  let r1 := run (answers 200 JNull) (handleQuerySubmit bad) in
  let r2 := run (fun _ => NoReply) (handleQuerySubmit good) in
  let r3 := run (answers 200 JNull) (handleQuerySubmit blank) in
  (JSON_parse (lit "abc") = None
   /\ sent r1 = []
   /\ length (sent r2) = 1%nat
   /\ queryError (detailPage (after r1)) = Some query_failed
   /\ queryError (detailPage (after r2)) = queryError (detailPage (after r1)))
  /\ (JSON_parse (lit "  ") = None
      /\ sent r3 = []
      /\ queryError (detailPage (after r3)) = None).
Proof. split_and!; by vm_compute. Qed.

(** The greatest double is [1.7976931348623157e308]: a decimal just above
    it still rounds to it, one past the half-way point is an infinity. *)
Example greatest_double :
  rounds_to_infinity 17976931348623158 292 = false
  /\ rounds_to_infinity 17976931348623159 292 = true
  /\ rounds_to_infinity 1 400 = true
  /\ rounds_to_infinity 1 (-400) = false.
Proof. split_and!; by vm_compute. Qed.

Example JSON_stringify_numbers :
  JSON_stringify
    (JArray [JNumber false 1 400; JNumber true 0 0; JNumber true 15 (-1)])
  = JArray [JNull; JNumber false 0 0; JNumber true 15 (-1)].
Proof. by vm_compute. Qed.

Lemma JSON_stringify_as_is (v : JSON) :
  written_as_is v = true -> JSON_stringify v = v.
Proof.
  revert v. fix IH 1. intros [| b | neg m e | s | l | ms]; cbn; try done.
  - intros H. apply andb_prop in H as [H1 H2].
    apply negb_true_iff in H1. rewrite H1.
    destruct neg; [| done]. cbn in H2. apply negb_true_iff in H2.
    by rewrite H2.
  - intros H. f_equal. induction l as [|x l IHl]; [done |].
    cbn in H. apply andb_prop in H as [Hx Hl]. cbn.
    by rewrite (IH x Hx), (IHl Hl).
  - intros H. f_equal. induction ms as [|[k x] ms IHl]; [done |].
    cbn in H. apply andb_prop in H as [Hx Hl]. cbn.
    by rewrite (IH x Hx), (IHl Hl).
Qed.

(** C4 (amended). For an agent of type ml, text that parses as JSON sends
    exactly one request, [POST /agents/{id}/query], whose body is
    [{query: "", parameters: {data: d}}], where [d] is the parsed value as
    [JSON.stringify] writes it: the parsed value itself when none of its
    numbers is an infinity or minus zero. *)
Theorem ml_query_request (c : Client) (a : Agent) (parsed : JSON)
    (net : Request -> Reply) :
  agent (detailPage c) = Some a ->
  agent_type a = lit "ml" ->
  JSON_parse (query (detailPage c)) = Some parsed ->
  exists req,
    sent (run net (handleQuerySubmit c)) = [req]
    /\ is_query_request (agentId (detailPage c)) (lit "")
         (JObject [(lit "data", JSON_stringify parsed)]) req
    /\ (written_as_is parsed = true ->
        is_query_request (agentId (detailPage c)) (lit "")
          (JObject [(lit "data", parsed)]) req).
Proof.
  intros Ha Hml Hp.
  destruct (handleQuerySubmit_valid c a parsed Ha Hml Hp)
    as (req & k & E & Hreq & Hk).
  destruct (Hk (net req) (reset_for_query c)) as (c'' & Ek & _).
  exists req. rewrite (run_once net _ _ _ _ _ _ E Ek).
  split; [done |]. split; [done |].
  intros Hw. by rewrite (JSON_stringify_as_is parsed Hw) in Hreq.
Qed.

(** The text of the specification, an object with the member a. *)
Lemma ml_query_request_witness :
  let c := sample_client None true (sample_page "ml" (litq "{'a':1}") None) in
  JSON_parse (litq "{'a':1}") = Some (JObject [(lit "a", JNumber false 1 0)])
  /\ exists req,
       sent (run (answers 200 JNull) (handleQuerySubmit c)) = [req]
       /\ is_query_request (lit "7") (lit "")
            (JObject [(lit "data", JObject [(lit "a", JNumber false 1 0)])])
            req.
Proof.
  intros c. split; [reflexivity |].
  destruct (ml_query_request c (sample_agent "ml")
              (JObject [(lit "a", JNumber false 1 0)]) (answers 200 JNull))
    as (req & Hs & _ & Hreq); [reflexivity.. |].
  exists req. split; [exact Hs | apply Hreq; by vm_compute].
Defined.

(** Against C4 as it was stated: the text [1e400] is JSON and parses, to a
    number beyond the doubles; the request that goes out carries
    [data: null], not the parsed number. *)
Lemma number_beyond_doubles_sent_as_null :
  let c := sample_client None true (sample_page "ml" (lit "1e400") None) in
  exists parsed req,
    JSON_parse (lit "1e400") = Some parsed
    /\ sent (run (answers 200 JNull) (handleQuerySubmit c)) = [req]
    /\ data req =
         JsonBody (JObject [(lit "query", JString []);
                            (lit "parameters",
                             JObject [(lit "data", JNull)])])
    /\ ~ is_query_request (lit "7") (lit "")
           (JObject [(lit "data", parsed)]) req.
Proof.
  intros c. eexists. eexists. split; [by vm_compute |].
  split; [by vm_compute |]. split; [by vm_compute |].
  intros (_ & _ & H). by vm_compute in H.
Qed.

(** C5 (amended). For an agent of any type but ml, text that is not blank
    sends exactly one request, [POST /agents/{id}/query], whose body is
    [{query: text, parameters: {}}], the text as it was typed; blank text
    (empty, or white space only) sends nothing and changes nothing. *)
Theorem text_query_request (c : Client) (a : Agent) (net : Request -> Reply) :
  agent (detailPage c) = Some a ->
  agent_type a <> lit "ml" ->
  if nonempty (trim (query (detailPage c)))
  then exists req,
         sent (run net (handleQuerySubmit c)) = [req]
         /\ is_query_request (agentId (detailPage c)) (query (detailPage c))
              (JObject []) req
  else sent (run net (handleQuerySubmit c)) = []
       /\ after (run net (handleQuerySubmit c)) = c.
Proof.
  intros Ha Hml. destruct (nonempty (trim (query (detailPage c)))) eqn:Hq.
  - destruct (handleQuerySubmit_text c a Hq Ha Hml)
      as (req & k & E & Hreq & Hk).
    destruct (Hk (net req) (reset_for_query c)) as (c'' & Ek & _).
    exists req. by rewrite (run_once net _ _ _ _ _ _ E Ek).
  - by rewrite (run_done net _ _ _ (handleQuerySubmit_blank c Hq)).
Qed.

(** A question for a RAG agent. *)
Lemma text_query_request_witness :
  let c := sample_client None true
             (sample_page "rag" (lit "what is new?") None) in
  exists req,
    sent (run (answers 200 JNull) (handleQuerySubmit c)) = [req]
    /\ is_query_request (lit "7") (lit "what is new?") (JObject []) req.
Proof.
  intros c.
  apply (text_query_request c (sample_agent "rag") (answers 200 JNull));
    [reflexivity | by vm_compute].
Defined.

(** Against C5 as it was stated: three spaces for a search agent send
    nothing. *)
Lemma blank_query_sends_nothing :
  let c := sample_client None true (sample_page "search" (lit "   ") None) in
  agent_type (sample_agent "search") <> lit "ml"
  /\ sent (run (answers 200 JNull) (handleQuerySubmit c)) = [].
Proof. split; by vm_compute. Qed.

(** ** The agent list *)

(** One deletion from the list, from the click to the reply, with nothing
    else happening in between. Without the user's confirmation no request
    goes out and nothing changes. With it, one [DELETE /agents/{id}] goes
    out; when it is fulfilled the list becomes the list without the entries
    of that id, the others staying as they were and in their order; when it
    is not, the list stays and an error message is set. *)
Lemma delete_agent_outcomes (c : Client) (net : Request -> Reply)
    (agentId : str) :
  let r := run net (AgentsPage_deleteAgent agentId c) in
  if confirm c delete_prompt
  then exists req,
         sent r = [req]
         /\ method req = DELETE
         /\ url req = lit "/agents/" ++ agentId
         /\ if fulfilled (net req)
            then agents (agentsPage (after r)) =
                   filter (fun a => agent_id a <> agentId)
                          (agents (agentsPage c))
                 /\ (forall a, a ∈ agents (agentsPage (after r)) <->
                               a ∈ agents (agentsPage c)
                               /\ agent_id a <> agentId)
                 /\ agents_error (agentsPage (after r)) =
                    agents_error (agentsPage c)
            else agents (agentsPage (after r)) = agents (agentsPage c)
                 /\ agents_error (agentsPage (after r)) = Some delete_failed
  else sent r = [] /\ after r = c.
Proof.
  unfold AgentsPage_deleteAgent, delete_prompt. step_through.
  destruct (confirm c _); step_through; [| done].
  destruct (truthy_str _); step_through;
    on_reply net rsp;
    try (destruct (status rsp =? 401)%N; step_through);
    split_and!; try done;
    intros a; rewrite list_elem_of_filter; tauto.
Qed.

(** A confirmed deletion waits for its reply with the list of the render
    it was started in: a fulfilled reply writes that list, without the
    entries of the id, over whatever the list has become by then. *)
Lemma AgentsPage_deleteAgent_await (id : str) (c : Client) :
  confirm c delete_prompt = true ->
  exists req k,
    AgentsPage_deleteAgent id c = Await c req k
    /\ method req = DELETE
    /\ url req = lit "/agents/" ++ id
    /\ forall rp c',
         k rp c' =
           Done (Returned tt)
             (if fulfilled rp
              then put_agents c'
                     (filter (fun a => agent_id a <> id)
                        (agents (agentsPage c)))
              else put_agents_error (after_reply rp c')
                     (Some delete_failed)).
Proof.
  intros Hc. unfold AgentsPage_deleteAgent, delete_prompt in *.
  step_through. rewrite Hc. step_through.
  destruct (truthy_str _); step_through;
    (do 2 eexists; split; [reflexivity |]; split; [done |];
     split; [done |]);
    intros [rsp|] c'; unfold after_reply, end_session; step_through;
    try (destruct ((200 <=? status rsp) && (status rsp <? 300))%N;
         step_through);
    try (destruct (status rsp =? 401)%N; step_through);
    by rewrite ?journal_two.
Qed.

(** C6 (code bug). The list shows agents 7 and 8. The user deletes 7 and,
    before the reply is there, deletes 8; both requests go out and both are
    fulfilled. The second handler still holds the list of the render it was
    started in, and writes it back without 8: agent 7, deleted on the
    server, is on the page again, with no error. *)
Theorem overlapping_deletions_restore_agent :
  List.map agent_id (agents (agentsPage (client sample_list))) =
    [lit "7"; lit "8"]
  /\ match list_fire_all [ClickDelete (lit "7"); ClickDelete (lit "8")]
             sample_list with
     | Some s =>
         List.map (fun x => (method (fst x), url (fst x))) (in_flight s) =
           [(DELETE, lit "/agents/7"); (DELETE, lit "/agents/8")]
     | None => False
     end
  /\ match list_fire_all [ClickDelete (lit "7"); ClickDelete (lit "8");
                          ListArrive 0 no_content] sample_list with
     | Some s =>
         List.map agent_id (agents (agentsPage (client s))) = [lit "8"]
     | None => False
     end
  /\ match list_fire_all [ClickDelete (lit "7"); ClickDelete (lit "8");
                          ListArrive 0 no_content; ListArrive 0 no_content]
             sample_list with
     | Some s =>
         List.map agent_id (agents (agentsPage (client s))) = [lit "7"]
         /\ agents_error (agentsPage (client s)) = None
         /\ in_flight s = []
     | None => False
     end.
Proof. split_and!; by vm_compute. Qed.

(** ** The upload form *)

(** C7. With no file selected the submit control of the upload form is
    disabled, and the handler, were it called all the same, returns at once:
    it never reaches the upload operation and no request goes out. *)
Theorem upload_without_file (c : Client) :
  file (detailPage c) = None ->
  upload_submit_disabled (detailPage c) = true
  /\ handleFileUpload c = Done (Returned tt) c
  /\ forall net, sent (run net (handleFileUpload c)) = [].
Proof.
  intros Hf. split_and!.
  - unfold upload_submit_disabled. rewrite Hf. apply orb_true_r.
  - by apply handleFileUpload_no_file.
  - intros net.
    by rewrite (run_done net _ _ _ (handleFileUpload_no_file c Hf)).
Qed.

(** The page of a RAG agent before any file is chosen. *)
Lemma upload_without_file_witness :
  let c := sample_client None true (sample_page "rag" [] None) in
  upload_submit_disabled (detailPage c) = true
  /\ handleFileUpload c = Done (Returned tt) c
  /\ forall net, sent (run net (handleFileUpload c)) = [].
Proof. intros c. apply (upload_without_file c). reflexivity. Defined.

(** C8. For a RAG agent on display with a file selected, the upload reads
    [agent.config.collection_name] and sends one
    [POST /agents/{id}/upload] as a multipart form with the file, and with
    [collection_name] only when the configuration has one (a truthy one).
    When the request is fulfilled the selected file is cleared, the file
    control is reset to the empty value and the result is kept; when it is
    not, the selected file and the control stay as they were and an error
    message is set. Either way the loading flag ends down. *)
Theorem upload_document_outcomes (c : Client) (a : Agent) (f : File)
    (name : option JSON) (net : Request -> Reply) :
  agent (detailPage c) = Some a ->
  agent_type a = lit "rag" ->
  loading (detailPage c) = false ->
  truthy_str (error (detailPage c)) = false ->
  file (detailPage c) = Some f ->
  member (agent_config a) (lit "collection_name") = Returned name ->
  let r := run net (handleFileUpload c) in
  exists req,
    sent r = [req]
    /\ is_upload_request (agentId (detailPage c)) f name req
    /\ (forall entries v,
          data req = FormData entries ->
          (lit "collection_name", v) ∈ entries ->
          exists n, name = Some n /\ v = FText n)
    /\ uploadLoading (detailPage (after r)) = false
    /\ if fulfilled (net req)
       then file (detailPage (after r)) = None
            /\ file_upload_value (after r) = lit ""
            /\ uploadResult (detailPage (after r)) = reply_data (net req)
            /\ uploadError (detailPage (after r)) = None
       else file (detailPage (after r)) = Some f
            /\ file_upload_value (after r) = file_upload_value c
            /\ uploadError (detailPage (after r)) = Some upload_failed.
Proof.
  intros Ha Hrag Hl He Hf Hm r.
  assert (collection_name_of (agent (detailPage c)) = Returned name) as Hn
    by (by rewrite Ha).
  destruct (handleFileUpload_sends c f name Hf Hn) as (req & k & E & Hreq & Hk).
  destruct (Hk (net req) (reset_for_upload c))
    as (c'' & Ek & _ & Hul & Hrest).
  assert (upload_section_shown (detailPage (reset_for_upload c)) = true) as Hs.
  { unfold upload_section_shown, page_shown. cbn. rewrite Hl, He, Ha. cbn.
    by apply str_eqb_true. }
  exists req. subst r. rewrite (run_once net _ _ _ _ _ _ E Ek). cbn.
  split_and!; try done.
  - intros entries v Hd Hin. destruct Hreq as (_ & _ & _ & Hd').
    rewrite Hd' in Hd. injection Hd as <-.
    apply elem_of_cons in Hin as [Hin | Hin]; [by vm_compute in Hin |].
    destruct name as [n|]; [| by apply elem_of_nil in Hin].
    destruct (truthy n); [| by apply elem_of_nil in Hin].
    apply list_elem_of_singleton in Hin. injection Hin as ->. by exists n.
  - destruct (fulfilled (net req)).
    + destruct Hrest as (H1 & H2 & H3 & H4). rewrite Hs in H4. done.
    + destruct Hrest as (H1 & H2 & H3 & H4). split_and!; try done.
      by rewrite H1.
Qed.

(** When the configuration cannot be read ([agent] or [agent.config] is
    [null] or [undefined]) the TypeError is caught like any failure: no
    request, the file stays, the error message is set. *)
Lemma upload_without_config (c : Client) (f : File) (e : Error)
    (net : Request -> Reply) :
  file (detailPage c) = Some f ->
  collection_name_of (agent (detailPage c)) = Thrown e ->
  sent (run net (handleFileUpload c)) = []
  /\ file (detailPage (after (run net (handleFileUpload c)))) = Some f
  /\ uploadError (detailPage (after (run net (handleFileUpload c))))
     = Some upload_failed.
Proof.
  intros Hf Hm.
  by rewrite (run_done net _ _ _ (handleFileUpload_throws c f e Hf Hm)).
Qed.

(** A fulfilled upload of the sample file into the collection docs. *)
Lemma upload_document_outcomes_witness :
  let c := sample_client (Some (lit "secret")) true
             (sample_page "rag" [] (Some sample_file)) in
  let r := run (answers 200 (JString (lit "stored"))) (handleFileUpload c) in
  exists req,
    sent r = [req]
    /\ is_upload_request (lit "7") sample_file
         (Some (JString (lit "docs"))) req
    /\ file (detailPage (after r)) = None
    /\ file_upload_value (after r) = lit "".
Proof.
  intros c r.
  destruct (upload_document_outcomes c (sample_agent "rag") sample_file
              (Some (JString (lit "docs")))
              (answers 200 (JString (lit "stored"))))
    as (req & Hs & Hreq & _ & _ & Hf & Hv & _); try reflexivity.
  exists req. split; [exact Hs |]. split; [exact Hreq |].
  split; [exact Hf | exact Hv].
Defined.

(** ** The response block *)

Lemma map_outcome_throws (f : JSON -> Outcome str) (l : list JSON)
    (x : JSON) :
  (forall y, In y l -> f y = Thrown TypeError \/ exists s, f y = Returned s) ->
  In x l ->
  f x = Thrown TypeError ->
  map_outcome f l = Thrown TypeError.
Proof.
  induction l as [|y l IH]; intros Hall Hin Hx; [done |].
  cbn. destruct (Hall y (or_introl eq_refl)) as [E | [s E]]; rewrite E;
    [done |].
  cbn. destruct Hin as [-> | Hin]; [congruence |].
  rewrite IH; [done | | done..]. intros z Hz. apply Hall. by right.
Qed.

Lemma render_source_outcome (doc : JSON) :
  render_source doc = Thrown TypeError
  \/ exists s, render_source doc = Returned s.
Proof.
  unfold render_source, member.
  destruct doc as [| | | | |ms]; cbn -[lit]; try by left.
  destruct (assoc (lit "content") ms) as [[| | | s | |]|]; cbn -[lit]; eauto.
Qed.

Lemma render_source_throws (doc : JSON) :
  lacks_string_content doc -> render_source doc = Thrown TypeError.
Proof.
  unfold render_source, lacks_string_content. intros H.
  destruct (member (Some doc) (lit "content")) as [[[| | | s | |]|]|e] eqn:E;
    cbn; try done.
  - by destruct (H s).
  - destruct doc as [| | | | |ms]; cbn in E; congruence.
Qed.

(** A falsy value is no object, so React takes it as a child. *)
Lemma falsy_valid_child (v : JSON) : truthy v = false -> valid_child v = true.
Proof. by destruct v. Qed.

(** A result that cuts the block short is shown as it is. *)
Lemma render_response_falsy (a : Agent) (result : JSON) :
  truthy result = false ->
  render_response a result = Returned (Value (Some result)).
Proof.
  intros Ht. unfold render_response, response_elements, and_then, truthy_opt.
  rewrite Ht. cbn. by rewrite (falsy_valid_child _ Ht).
Qed.

(** C9. In the response block of a RAG agent, a result with a truthy
    [answer] and a [source_documents] array in which some element has no
    string [content] makes the render throw a TypeError: [doc.content] is
    used without a check. The fields of the result itself are checked: a
    result without [answer] renders without an error, and so does a result
    without [source_documents] whose [answer], if it has one, is a value
    that React shows. *)
Theorem rag_sources_without_content_throw (a : Agent)
    (members : list (str * JSON)) (answer doc : JSON) (docs : list JSON) :
  agent_type a = lit "rag" ->
  assoc (lit "answer") members = Some answer ->
  truthy answer = true ->
  assoc (lit "source_documents") members = Some (JArray docs) ->
  In doc docs ->
  lacks_string_content doc ->
  render_response a (JObject members) = Thrown TypeError
  /\ (forall others,
        assoc (lit "answer") others = None ->
        exists v, render_response a (JObject others) = Returned v)
  /\ (forall others,
        assoc (lit "source_documents") others = None ->
        valid_child_opt (assoc (lit "answer") others) = true ->
        exists v, render_response a (JObject others) = Returned v).
Proof.
  intros Hrag Hans Ht Hdocs Hin Hdoc.
  assert (agent_type a <> lit "search" /\ agent_type a <> lit "ml") as [Hs Hm]
    by (rewrite Hrag; split; by vm_compute).
  unfold render_response, response_elements, when_type.
  rewrite (str_eqb_true _ _ Hrag), (str_eqb_false _ _ Hs),
    (str_eqb_false _ _ Hm).
  split_and!.
  - cbn -[lit truthy]. rewrite Hans. cbn -[lit truthy].
    unfold and_then at 2. unfold truthy_opt. rewrite Ht, Hdocs.
    unfold render_list. cbn -[lit map_outcome].
    destruct docs as [|d docs]; [done |]. cbn -[lit map_outcome].
    rewrite (map_outcome_throws render_source (d :: docs) doc); try done.
    + intros y _. apply render_source_outcome.
    + by apply render_source_throws.
  - intros others Ho. cbn -[lit]. rewrite Ho. cbn. eauto.
  - intros others Ho Hv. cbn -[lit]. rewrite Ho.
    destruct (assoc (lit "answer") others) as [v|]; cbn -[lit truthy];
      [| eauto].
    unfold and_then, truthy_opt. cbn in Hv.
    destruct (truthy v) eqn:Et; cbn;
      unfold valid_response, valid_rag; cbn; rewrite Hv; cbn; eauto.
Qed.

(** Two sources, the second with a title and no content. *)
Lemma rag_sources_without_content_throw_witness :
  render_response (sample_agent "rag")
    (JObject [(lit "answer", JString (lit "42"));
              (lit "source_documents",
               JArray [JObject [(lit "content", JString (lit "a page"))];
                       JObject [(lit "title", JString (lit "untitled"))]])])
  = Thrown TypeError.
Proof.
  apply (rag_sources_without_content_throw (sample_agent "rag") _
           (JString (lit "42"))
           (JObject [(lit "title", JString (lit "untitled"))])
           [JObject [(lit "content", JString (lit "a page"))];
            JObject [(lit "title", JString (lit "untitled"))]]);
    try reflexivity.
  - right. left. reflexivity.
  - intros s. vm_compute. discriminate.
Defined.

(** ** The query hooks through a visit *)

(** C10. Through a visit to the page (typing, submitting either form while
    its button is enabled, replies arriving in any order) a result and an
    error are never both there, so the view never shows both; once nothing
    is in flight the loading flag is down. A submission that the guard on
    blank text lets through first raises the flag and resets both hooks to
    [null]; it then ends, at once or on any reply, with the flag down and
    exactly one of the two set: the result on a fulfilled reply, the error
    otherwise. (One that the guard stops returns at once and touches
    nothing.) *)
Theorem query_result_and_error_exclusive (es : list Event) (s0 s : Session) :
  fresh s0 ->
  fire_all es s0 = Some s ->
  never_both (client s)
  /\ truthy (queryResult (detailPage (client s)))
     && truthy_str (queryError (detailPage (client s))) = false
  /\ (in_flight s = [] -> queryLoading (detailPage (client s)) = false)
  /\ (handleQuerySubmit (client s) = Done (Returned tt) (client s)
      \/ (exists c',
            handleQuerySubmit (client s) = Done (Returned tt) c'
            /\ query_fields c' = (JNull, Some query_failed, false))
      \/ (exists req k,
            handleQuerySubmit (client s) =
              Await (reset_for_query (client s)) req k
            /\ query_fields (reset_for_query (client s)) = (JNull, None, true)
            /\ settles_query k)).
Proof.
  intros Hf Hr.
  pose proof (fire_all_keeps_invariant es s0 s (fresh_invariant s0 Hf) Hr)
    as Inv.
  split_and!.
  - by apply invariant_never_both.
  - pose proof (invariant_never_both s Inv) as Hn. unfold never_both in Hn.
    destruct (queryResult (detailPage (client s))); try done;
      rewrite Hn by done; apply andb_false_r.
  - intros Hn. destruct Inv as [(Hl & _) | (_ & l1 & req & k & l2 & E & _)];
      [done |].
    rewrite Hn in E. by destruct l1.
  - destruct (handleQuerySubmit_step (client s))
      as [E | [(c' & E & Hc') | (req & k & E & Hk)]]; eauto 8.
Qed.

(** A visit with a failed and then a fulfilled query. *)
Lemma query_result_and_error_exclusive_witness :
  fire_all sample_visit sample_session = Some sample_end
  /\ query_fields (client sample_end) = (JString (lit "nothing"), None, false)
  /\ never_both (client sample_end).
Proof.
  split; [by vm_compute |]. split; [by vm_compute |].
  apply (query_result_and_error_exclusive sample_visit sample_session).
  - unfold fresh. split_and!; reflexivity.
  - by vm_compute.
Defined.

(** ** More on the API client *)

(** One run of an operation, in full. *)
Lemma perform_run (op : Operation) (net : Request -> Reply) (c : Client) :
  exists req,
    run net (perform op c) =
      {| outcome :=
           if fulfilled (net req)
           then Returned (match op with
                          | DeleteAgent _ => JBool true
                          | _ => reply_data (net req)
                          end)
           else Thrown (error_of (net req));
         after := if uses_api op then after_reply (net req) c else c;
         sent := [req] |}
    /\ headers req !! lit "Authorization" =
         (if uses_api op
          then match localStorage c !! lit "token" with
               | Some t =>
                   if nonempty t then Some (lit "Bearer " ++ t) else None
               | None => None
               end
          else None).
Proof.
  destruct op; step_through;
    try (destruct (localStorage c !! lit "token") as [t|]; step_through;
         [destruct (nonempty t); step_through |]);
    try (destruct (truthy _); step_through);
    on_reply net rsp;
    unfold after_reply, end_session; step_through;
    try (destruct (N.eqb_spec (status rsp) 401) as [E|E]; step_through;
         try match goal with
             | H : (_ && _) = true |- _ =>
                 rewrite E in H; by vm_compute in H
             end);
    rewrite ?journal_two;
    (split; [reflexivity |]);
    first [ by apply lookup_insert_eq | by vm_compute ].
Qed.

Lemma fulfilled_not_401 (rp : Reply) :
  fulfilled rp = true -> is_401 (error_of rp) = false.
Proof.
  destruct rp as [r|]; cbn; [| done].
  intros [H1 H2]%andb_true_iff. apply N.eqb_neq.
  apply N.ltb_lt in H2. lia.
Qed.

Lemma is_401_not_fulfilled (rp : Reply) :
  is_401 (error_of rp) = true -> fulfilled rp = false.
Proof.
  intros H. destruct (fulfilled rp) eqn:E; [| done].
  apply fulfilled_not_401 in E. congruence.
Qed.

(** X1. Once a 401 has come back to an operation on [api], the next
    operation goes out without an Authorization header, whatever token was
    stored before: the interceptor of responses removed it and the
    interceptor of requests finds none. *)
Theorem unauthorized_then_anonymous (op1 op2 : Operation)
    (net1 net2 : Request -> Reply) (c : Client) (req1 : Request) :
  uses_api op1 = true ->
  sent (run net1 (perform op1 c)) = [req1] ->
  is_401 (error_of (net1 req1)) = true ->
  exists req2,
    sent (run net2 (perform op2 (after (run net1 (perform op1 c))))) = [req2]
    /\ headers req2 !! lit "Authorization" = None.
Proof.
  intros Hapi Hs H401.
  destruct (perform_run op1 net1 c) as (r1 & E1 & _).
  rewrite E1 in *. cbn [sent] in Hs. injection Hs as ->. cbn [after].
  rewrite Hapi. unfold after_reply. rewrite H401.
  destruct (perform_run op2 net2 (end_session c)) as (r2 & E2 & H2).
  exists r2. rewrite E2. split; [done |]. rewrite H2.
  destruct (uses_api op2); [| done].
  unfold end_session. cbn. by rewrite lookup_delete_eq.
Qed.

Lemma unauthorized_then_anonymous_witness :
  let c := sample_client (Some (lit "secret")) true
             (sample_page "rag" [] None) in
  exists req2,
    sent (run (answers 200 JNull)
            (perform GetCurrentUser
               (after (run (answers 401 JNull) (perform GetAgents c)))))
    = [req2]
    /\ headers req2 !! lit "Authorization" = None.
Proof.
  intros c.
  destruct (perform_run GetAgents (answers 401 JNull) c) as (req1 & E & _).
  apply (unauthorized_then_anonymous GetAgents GetCurrentUser
           (answers 401 JNull) (answers 200 JNull) c req1).
  - reflexivity.
  - by rewrite E.
  - reflexivity.
Defined.

(** X2. In the configuration that reaches the transport, the Content-Type
    of a request is that of a form for [login], that of a multipart form for
    [uploadDocument] (the header of the call wins over the one of the
    instance) and JSON for every other operation; every request carries the
    Accept header of axios; and none carries a header other than
    Content-Type, Accept and Authorization. *)
Theorem request_headers (op : Operation) (net : Request -> Reply)
    (c : Client) :
  exists req,
    sent (run net (perform op c)) = [req]
    /\ headers req !! lit "Content-Type" =
         Some (match op with
               | Login _ _ => lit "application/x-www-form-urlencoded"
               | UploadDocument _ _ _ => lit "multipart/form-data"
               | _ => lit "application/json"
               end)
    /\ headers req !! lit "Accept" =
         Some (lit "application/json, text/plain, */*")
    /\ forall name,
         is_Some (headers req !! name) ->
         name = lit "Content-Type" \/ name = lit "Accept"
         \/ name = lit "Authorization".
Proof.
  destruct op; step_through;
    try (destruct (truthy_str (localStorage c !! lit "token"));
         step_through);
    try (destruct (truthy _); step_through);
    on_reply net rsp;
    try (destruct (status rsp =? 401)%N; step_through);
    (split; [reflexivity |]);
    (split; [by vm_compute |]);
    (split; [by vm_compute |]);
    intros name [v Hv];
    unfold with_header, api_headers, axios_headers in Hv; cbn in Hv;
    repeat first
      [ apply lookup_insert_Some in Hv as [[<- _] | [_ Hv]]
      | apply lookup_union_Some_raw in Hv as [Hv | [_ Hv]]
      | apply lookup_singleton_Some in Hv as [<- _]
      | by rewrite lookup_empty in Hv ];
    auto.
Qed.

(** X3. Where each operation goes and what it carries: the method, the base
    URL, the path and the body of its one request. [login] has no base URL
    and spells the address out from the environment (the text undefined
    when that is not set). The data of [register], [createAgent] and
    [updateAgent] go out as axios writes them: a string that is JSON text
    as that text, so as the value it denotes and not as a string, anything
    else as [JSON.stringify] writes it. A query without parameters carries
    the empty object. *)
Theorem request_table (op : Operation) (net : Request -> Reply) (c : Client) :
  exists req,
    sent (run net (perform op c)) = [req]
    /\ (method req, baseURL req, url req, data req) =
       match op with
       | Login u p =>
           (POST, None, template "undefined" (API_URL c) ++ lit "/auth/token",
            UrlEncoded [(lit "username", u); (lit "password", p)])
       | Register d =>
           (POST, Some (API_URL c), lit "/auth/register",
            JsonBody (stringifySafely d))
       | GetCurrentUser => (GET, Some (API_URL c), lit "/users/me", NoBody)
       | GetAgents => (GET, Some (API_URL c), lit "/agents", NoBody)
       | GetAgent i => (GET, Some (API_URL c), lit "/agents/" ++ i, NoBody)
       | CreateAgent d =>
           (POST, Some (API_URL c), lit "/agents",
            JsonBody (stringifySafely d))
       | UpdateAgent i d =>
           (PUT, Some (API_URL c), lit "/agents/" ++ i,
            JsonBody (stringifySafely d))
       | DeleteAgent i =>
           (DELETE, Some (API_URL c), lit "/agents/" ++ i, NoBody)
       | QueryAgent i q p =>
           (POST, Some (API_URL c), lit "/agents/" ++ i ++ lit "/query",
            JsonBody
              (JObject [(lit "query", JString q);
                        (lit "parameters",
                         match p with
                         | Some v => JSON_stringify v
                         | None => JObject []
                         end)]))
       | UploadDocument i f n =>
           (POST, Some (API_URL c), lit "/agents/" ++ i ++ lit "/upload",
            FormData
              ((lit "file", FFile f) ::
               match n with
               | Some v =>
                   if truthy v then [(lit "collection_name", FText v)]
                   else []
               | None => []
               end))
       end.
Proof.
  destruct op as [u p|d| | |i|d|i d|i|i q [p|]|i f [v|]]; step_through;
    try (destruct (truthy_str (localStorage c !! lit "token"));
         step_through);
    try (destruct (truthy v) eqn:?; step_through);
    on_reply net rsp;
    try (destruct (status rsp =? 401)%N; step_through);
    by split.
Qed.

(** X4. What an operation gives back: on a fulfilled reply the data of the
    response, except [deleteAgent], which gives [true] whatever the body
    was; on any other reply, or none, it throws the error of the transport
    and gives nothing. *)
Theorem operation_results (op : Operation) (net : Request -> Reply)
    (c : Client) :
  exists req,
    sent (run net (perform op c)) = [req]
    /\ outcome (run net (perform op c)) =
       if fulfilled (net req)
       then Returned (match op with
                      | DeleteAgent _ => JBool true
                      | _ => reply_data (net req)
                      end)
       else Thrown (error_of (net req)).
Proof.
  destruct (perform_run op net c) as (req & E & _).
  exists req. by rewrite E.
Qed.

(** ** More on the query form *)

Lemma query_continuation_exact (k : Pending) :
  (forall rp c',
     k rp c' =
     step_finally
       (step_catch
          (step_bind
             (step_catch
                (step_bind
                   (step_then (settle rp c') response_interceptor
                      response_error_interceptor)
                   (fun response => ret (response_data response)))
                rethrow)
             (fun result => setQueryResult result))
          (fun _ => setQueryError (Some query_failed)))
       (setQueryLoading false)) ->
  forall rp c', k rp c' = Done (Returned tt) (query_settled rp c').
Proof.
  intros Hk rp c'. rewrite Hk. unfold query_settled, after_reply, end_session.
  destruct rp as [r|]; step_through; [| done].
  destruct ((200 <=? status r) && (status r <? 300))%N; step_through; [done |].
  destruct (status r =? 401)%N; step_through; [| done].
  by rewrite journal_two.
Qed.

(** A submission that gets as far as the network. *)
Lemma handleQuerySubmit_await (c : Client) (a : Agent) :
  nonempty (trim (query (detailPage c))) = true ->
  agent (detailPage c) = Some a ->
  (agent_type a = lit "ml" ->
   exists v, JSON_parse (query (detailPage c)) = Some v) ->
  exists req k,
    handleQuerySubmit c = Await (reset_for_query c) req k
    /\ forall rp c', k rp c' = Done (Returned tt) (query_settled rp c').
Proof.
  intros Hq Ha Hml. unfold handleQuerySubmit. step_through.
  rewrite Hq, Ha. step_through.
  destruct (decide (agent_type a = lit "ml")) as [E | E].
  - destruct (Hml E) as [v Hv]. rewrite str_eqb_true, Hv by done.
    step_through.
    destruct (truthy_str _); step_through;
      (do 2 eexists; split; [reflexivity |]);
      by apply query_continuation_exact.
  - rewrite str_eqb_false by done. step_through.
    destruct (truthy_str _); step_through;
      (do 2 eexists; split; [reflexivity |]);
      by apply query_continuation_exact.
Qed.

(** One run of a submission whose text is not blank, in full. *)
Lemma handleQuerySubmit_run (c : Client) (net : Request -> Reply) :
  nonempty (trim (query (detailPage c))) = true ->
  run net (handleQuerySubmit c) =
    {| outcome := Returned tt; after := query_refused c; sent := [] |}
  \/ exists req,
       run net (handleQuerySubmit c) =
         {| outcome := Returned tt;
            after := query_settled (net req) (reset_for_query c);
            sent := [req] |}.
Proof.
  intros Hq.
  destruct (agent (detailPage c)) as [a|] eqn:Ha;
    [| left; apply run_done; by apply handleQuerySubmit_no_agent].
  destruct (decide (agent_type a = lit "ml"
                    /\ JSON_parse (query (detailPage c)) = None))
    as [[Hml Hp] | Hn].
  - left. apply run_done. by eapply handleQuerySubmit_invalid.
  - right. destruct (handleQuerySubmit_await c a Hq Ha) as (req & k & E & Hk).
    + intros Hml. destruct (JSON_parse (query (detailPage c))) as [v|];
        [by exists v | by destruct Hn].
    + exists req. by apply (run_once net _ _ _ _ _ _ E (Hk _ _)).
Qed.

(** X5. What a submission of the query form leaves behind. It never throws
    and sends at most one request. Blank text changes nothing; otherwise the
    loading flag ends down and the hooks hold either the data of a fulfilled
    reply and no error, or no result and the one error message, whatever
    they held before: an older result or error never survives. *)
Theorem query_submission_outcome (c : Client) (net : Request -> Reply) :
  let r := run net (handleQuerySubmit c) in
  outcome r = Returned tt
  /\ if nonempty (trim (query (detailPage c)))
     then (sent r = []
           /\ query_fields (after r) = (JNull, Some query_failed, false))
          \/ exists req,
               sent r = [req]
               /\ query_fields (after r) =
                    if fulfilled (net req)
                    then (reply_data (net req), None, false)
                    else (JNull, Some query_failed, false)
     else sent r = [] /\ after r = c.
Proof.
  destruct (nonempty (trim (query (detailPage c)))) eqn:Hq.
  - destruct (handleQuerySubmit_run c net Hq) as [E | [req E]];
      cbn zeta; rewrite E; (split; [done |]); [by left | right].
    exists req. split; [done |]. unfold query_settled, after_reply.
    destruct (fulfilled (net req)); [done |]. by destruct (is_401 _).
  - cbn zeta. by rewrite (run_done net _ _ _ (handleQuerySubmit_blank c Hq)).
Qed.

(** X6. A 401 in answer to a query ends the session and shows the error of
    the form: the token is removed, the location is the login view, and the
    hooks hold the one error message with the loading flag down. *)
Theorem unauthorized_query (c : Client) (net : Request -> Reply)
    (req : Request) :
  sent (run net (handleQuerySubmit c)) = [req] ->
  is_401 (error_of (net req)) = true ->
  let c' := after (run net (handleQuerySubmit c)) in
  localStorage c' = delete (lit "token") (localStorage c)
  /\ location_href c' = lit "/login"
  /\ journal c' =
       journal c ++ [RemoveItem (lit "token"); SetHref (lit "/login")]
  /\ query_fields c' = (JNull, Some query_failed, false).
Proof.
  intros Hs H401.
  destruct (nonempty (trim (query (detailPage c)))) eqn:Hq;
    [| by rewrite (run_done net _ _ _ (handleQuerySubmit_blank c Hq)) in Hs].
  destruct (handleQuerySubmit_run c net Hq) as [E | [rq E]];
    rewrite E in *; [done |].
  cbn [sent] in Hs. injection Hs as ->. cbn zeta. cbn [after].
  unfold query_settled, after_reply.
  by rewrite (is_401_not_fulfilled _ H401), H401.
Qed.

Lemma unauthorized_query_witness :
  let c := sample_client (Some (lit "secret")) true
             (sample_page "rag" (lit "what is new?") None) in
  let c' := after (run (answers 401 JNull) (handleQuerySubmit c)) in
  localStorage c' !! lit "token" = None
  /\ location_href c' = lit "/login"
  /\ queryError (detailPage c') = Some query_failed.
Proof.
  intros c c'.
  destruct (handleQuerySubmit_text c (sample_agent "rag"))
    as (req & k & E & _ & Hk); [reflexivity | reflexivity | by vm_compute |].
  destruct (Hk (answers 401 JNull req) (reset_for_query c)) as (c2 & Ek & _).
  destruct (unauthorized_query c (answers 401 JNull) req)
    as (H1 & H2 & _ & H4);
    [by rewrite (run_once _ _ _ _ _ _ _ E Ek) | reflexivity |].
  subst c'. rewrite H1, H2. split; [by vm_compute |]. split; [done |].
  exact (f_equal (fun x => snd (fst x)) H4).
Defined.

Lemma restore_query_settled (rp : Reply) (c : Client) :
  restore_query c (query_settled rp (reset_for_query c)) = after_reply rp c.
Proof.
  unfold query_settled, after_reply.
  destruct (fulfilled rp) eqn:F.
  - rewrite (fulfilled_not_401 _ F). by destruct c as [? ? ? ? ? ? ? []].
  - destruct (is_401 _); by destruct c as [? ? ? ? ? ? ? []].
Qed.

(** X7. A submission of the query form touches the three query hooks and
    nothing else: not the text in the box, not the agent, not the upload
    form, not the list page. The browser changes only when a 401 came
    back. *)
Theorem query_leaves_rest (c : Client) (net : Request -> Reply) :
  let r := run net (handleQuerySubmit c) in
  restore_query c (after r) =
    match sent r with
    | [req] => after_reply (net req) c
    | _ => c
    end.
Proof.
  destruct (nonempty (trim (query (detailPage c)))) eqn:Hq.
  - destruct (handleQuerySubmit_run c net Hq) as [E | [req E]];
      cbn zeta; rewrite E; cbn [sent after].
    + by destruct c as [? ? ? ? ? ? ? []].
    + apply restore_query_settled.
  - cbn zeta. rewrite (run_done net _ _ _ (handleQuerySubmit_blank c Hq)).
    cbn. by destruct c as [? ? ? ? ? ? ? []].
Qed.

(** X8. A fulfilled reply whose data is falsy ([null], [false], zero, the
    empty text an empty body gives) sets no error and shows no response
    block: the block is cut short by the result itself. *)
Theorem fulfilled_falsy_result_shows_nothing (c : Client)
    (net : Request -> Reply) (req : Request) (a : Agent) :
  sent (run net (handleQuerySubmit c)) = [req] ->
  fulfilled (net req) = true ->
  truthy (reply_data (net req)) = false ->
  let c' := after (run net (handleQuerySubmit c)) in
  queryError (detailPage c') = None
  /\ queryLoading (detailPage c') = false
  /\ render_response a (queryResult (detailPage c')) =
       Returned (Value (Some (reply_data (net req)))).
Proof.
  intros Hs Hf Ht.
  destruct (nonempty (trim (query (detailPage c)))) eqn:Hq;
    [| by rewrite (run_done net _ _ _ (handleQuerySubmit_blank c Hq)) in Hs].
  destruct (handleQuerySubmit_run c net Hq) as [E | [rq E]];
    rewrite E in *; [done |].
  cbn [sent] in Hs. injection Hs as ->. cbn zeta. cbn [after].
  unfold query_settled. rewrite Hf. cbn -[render_response].
  split; [done |]. split; [done |].
  by apply render_response_falsy.
Qed.

Lemma fulfilled_falsy_result_shows_nothing_witness :
  let c := sample_client None true
             (sample_page "ml" (litq "{'rows': []}") None) in
  let c' := after (run (answers 200 (JNumber false 0 0))
                     (handleQuerySubmit c)) in
  queryError (detailPage c') = None
  /\ render_response (sample_agent "ml") (queryResult (detailPage c')) =
       Returned (Value (Some (JNumber false 0 0))).
Proof.
  intros c c'.
  destruct (handleQuerySubmit_run c (answers 200 (JNumber false 0 0)))
    as [E | [req E]]; [reflexivity | by vm_compute in E |].
  destruct (fulfilled_falsy_result_shows_nothing c
              (answers 200 (JNumber false 0 0)) req (sample_agent "ml"))
    as (H1 & _ & H3); [by rewrite E | reflexivity | reflexivity |].
  split; [exact H1 | exact H3].
Defined.

(** ** More on the upload form *)

Lemma upload_continuation_exact (k : Pending) :
  (forall rp c',
     k rp c' =
     step_finally
       (step_catch
          (step_bind
             (step_catch
                (step_bind
                   (step_then (settle rp c') response_interceptor
                      response_error_interceptor)
                   (fun response => ret (response_data response)))
                rethrow)
             (fun result =>
                setUploadResult result ;;; setFile None ;;;
                reset_file_input)%async)
          (fun _ => setUploadError (Some upload_failed)))
       (setUploadLoading false)) ->
  forall rp c', k rp c' = Done (Returned tt) (upload_settled rp c').
Proof.
  intros Hk rp c'. rewrite Hk. unfold upload_settled, after_reply, end_session.
  destruct rp as [r|]; step_through; [| done].
  destruct ((200 <=? status r) && (status r <? 300))%N; step_through.
  - unfold reset_file_input, bind, get. step_through.
    change (upload_section_shown _)
      with (upload_section_shown (detailPage c')).
    by destruct (upload_section_shown (detailPage c')).
  - destruct (status r =? 401)%N; step_through; [| done].
    by rewrite journal_two.
Qed.

(** One run of an upload with a file and a configuration it can read, in
    full. *)
Lemma handleFileUpload_run (c : Client) (f : File) (name : option JSON)
    (net : Request -> Reply) :
  file (detailPage c) = Some f ->
  collection_name_of (agent (detailPage c)) = Returned name ->
  exists req,
    run net (handleFileUpload c) =
      {| outcome := Returned tt;
         after := upload_settled (net req) (reset_for_upload c);
         sent := [req] |}
    /\ is_upload_request (agentId (detailPage c)) f name req.
Proof.
  intros Hf Hm. unfold handleFileUpload. step_through. rewrite Hf.
  destruct (agent (detailPage c)) as [a|]; unfold collection_name_of in Hm;
    [| done].
  cbn -[lit member]. rewrite Hm. unfold is_upload_request.
  cbn -[lit trim JSON_parse member run].
  destruct (truthy_str _); cbn -[lit trim JSON_parse member run];
    (destruct name as [v|]; cbn -[lit trim JSON_parse member run];
     [destruct (truthy v) |]);
    cbn -[lit trim JSON_parse member run];
    (eexists; split;
     [eapply run_once; [reflexivity | by apply upload_continuation_exact]
     | repeat split; by vm_compute]).
Qed.

Lemma choose_cancelled (cancels : list (option (list File))) (c : Client) :
  Forall cancelled cancels -> choose_each cancels c = c.
Proof.
  induction 1 as [|files rest [-> | ->] _ IH]; cbn; done.
Qed.

(** X9. The file that goes up is the first one of the last selection that
    was not empty: further files of that selection are ignored, and
    cancelling the dialog afterwards does not take the file back. *)
Theorem chosen_file_is_uploaded (c : Client) (f : File) (others : list File)
    (cancels : list (option (list File))) (name : option JSON)
    (net : Request -> Reply) :
  Forall cancelled cancels ->
  collection_name_of (agent (detailPage c)) = Returned name ->
  let c' := choose_each (Some (f :: others) :: cancels) c in
  file (detailPage c') = Some f
  /\ exists req,
       sent (run net (handleFileUpload c')) = [req]
       /\ is_upload_request (agentId (detailPage c)) f name req.
Proof.
  intros Hc Hn.
  assert (choose_each (Some (f :: others) :: cancels) c
          = put_file c (Some f)) as E0
    by (cbn [choose_each]; by rewrite (choose_cancelled _ _ Hc)).
  cbn zeta. rewrite E0. split; [done |].
  destruct (handleFileUpload_run (put_file c (Some f)) f name net)
    as (req & E & Hreq); [done | done |].
  exists req. by rewrite E.
Qed.

Lemma chosen_file_is_uploaded_witness :
  let other := {| file_name := lit "b.txt"; file_data := [] |} in
  let c := sample_client None true (sample_page "rag" [] None) in
  let c' := choose_each [Some [sample_file; other]; Some []; None] c in
  exists req,
    sent (run (answers 200 JNull) (handleFileUpload c')) = [req]
    /\ is_upload_request (lit "7") sample_file
         (Some (JString (lit "docs"))) req.
Proof.
  intros other c c'.
  apply (chosen_file_is_uploaded c sample_file [other] [Some []; None]
           (Some (JString (lit "docs"))) (answers 200 JNull)).
  - apply Forall_cons_2; [by right |].
    apply Forall_cons_2; [by left | apply Forall_nil_2].
  - reflexivity.
Defined.

(** X10. After an upload the form is ready for what comes next. A fulfilled
    one leaves no file, so the button is disabled and the handler sends
    nothing more; one that failed leaves the file and the button enabled,
    and trying again sends the same file to the same address. *)
Theorem upload_then_again (c : Client) (f : File) (name : option JSON)
    (net1 net2 : Request -> Reply) (req1 : Request) :
  file (detailPage c) = Some f ->
  collection_name_of (agent (detailPage c)) = Returned name ->
  sent (run net1 (handleFileUpload c)) = [req1] ->
  let c' := after (run net1 (handleFileUpload c)) in
  if fulfilled (net1 req1)
  then upload_submit_disabled (detailPage c') = true
       /\ sent (run net2 (handleFileUpload c')) = []
  else upload_submit_disabled (detailPage c') = false
       /\ exists req2,
            sent (run net2 (handleFileUpload c')) = [req2]
            /\ method req2 = method req1
            /\ url req2 = url req1
            /\ data req2 = data req1.
Proof.
  intros Hf Hn Hs.
  destruct (handleFileUpload_run c f name net1 Hf Hn) as (rq & E & Hreq).
  rewrite E in *. cbn [sent] in Hs. injection Hs as ->. cbn zeta. cbn [after].
  unfold upload_settled. destruct (fulfilled (net1 req1)).
  - assert (file (detailPage (put_uploadLoading
              ((if upload_section_shown (detailPage (reset_for_upload c))
                then with_file_upload_value (lit "") else fun x => x)
                 (put_file (put_uploadResult (reset_for_upload c)
                              (reply_data (net1 req1))) None)) false))
            = None) as Hnone
      by (by destruct (upload_section_shown _)).
    split.
    + unfold upload_submit_disabled. rewrite Hnone. apply orb_true_r.
    + by rewrite (run_done net2 _ _ _ (handleFileUpload_no_file _ Hnone)).
  - set (c2 := put_uploadLoading _ false).
    assert (file (detailPage c2) = Some f) as Hf2
      by (subst c2; unfold after_reply; by destruct (is_401 _)).
    assert (collection_name_of (agent (detailPage c2)) = Returned name) as Hn2
      by (subst c2; unfold after_reply; by destruct (is_401 _)).
    assert (agentId (detailPage c2) = agentId (detailPage c)) as Hid
      by (subst c2; unfold after_reply; by destruct (is_401 _)).
    split.
    + unfold upload_submit_disabled. by rewrite Hf2.
    + destruct (handleFileUpload_run c2 f name net2 Hf2 Hn2)
        as (req2 & E2 & Hreq2).
      exists req2. rewrite E2. split; [done |].
      destruct Hreq as (M1 & U1 & _ & D1).
      destruct Hreq2 as (M2 & U2 & _ & D2).
      rewrite Hid in U2. by rewrite M1, M2, U1, U2, D1, D2.
Qed.

Lemma upload_then_again_witness :
  let c := sample_client (Some (lit "secret")) true
             (sample_page "rag" [] (Some sample_file)) in
  let c' := after (run (fun _ => NoReply) (handleFileUpload c)) in
  upload_submit_disabled (detailPage c') = false
  /\ exists req2,
       sent (run (answers 200 JNull) (handleFileUpload c')) = [req2]
       /\ data req2 =
            FormData [(lit "file", FFile sample_file);
                      (lit "collection_name",
                       FText (JString (lit "docs")))].
Proof.
  intros c c'.
  destruct (handleFileUpload_run c sample_file (Some (JString (lit "docs")))
              (fun _ => NoReply)) as (req1 & E & Hreq);
    [reflexivity | reflexivity |].
  pose proof (upload_then_again c sample_file (Some (JString (lit "docs")))
                (fun _ => NoReply) (answers 200 JNull) req1
                eq_refl eq_refl) as H.
  rewrite E in H. specialize (H eq_refl). cbn [after fulfilled] in H.
  destruct H as (H1 & req2 & H2 & _ & _ & H3).
  subst c'. rewrite E. cbn [after]. split; [exact H1 |].
  exists req2. split; [exact H2 |]. rewrite H3.
  by destruct Hreq as (_ & _ & _ & ->).
Defined.

Lemma restore_upload_settled (rp : Reply) (c : Client) :
  restore_upload c (upload_settled rp (reset_for_upload c)) = after_reply rp c.
Proof.
  unfold upload_settled, after_reply.
  destruct (fulfilled rp) eqn:F.
  - rewrite (fulfilled_not_401 _ F).
    destruct (upload_section_shown _); by destruct c as [? ? ? ? ? ? ? []].
  - destruct (is_401 _); by destruct c as [? ? ? ? ? ? ? []].
Qed.

(** X11. An upload touches the hooks of the upload form and the file
    control and nothing else: not the query form, not the agent, not the
    list page. The browser changes only when a 401 came back. *)
Theorem upload_leaves_rest (c : Client) (net : Request -> Reply) :
  let r := run net (handleFileUpload c) in
  restore_upload c (after r) =
    match sent r with
    | [req] => after_reply (net req) c
    | _ => c
    end.
Proof.
  cbn zeta. destruct (file (detailPage c)) as [f|] eqn:Hf.
  - destruct (collection_name_of (agent (detailPage c))) as [name|e] eqn:Hn.
    + destruct (handleFileUpload_run c f name net Hf Hn) as (req & E & _).
      rewrite E. cbn [sent after]. apply restore_upload_settled.
    + rewrite (run_done net _ _ _ (handleFileUpload_throws c f e Hf Hn)).
      cbn [sent after]. by destruct c as [? ? ? ? ? ? ? []].
  - rewrite (run_done net _ _ _ (handleFileUpload_no_file c Hf)).
    cbn [sent after]. by destruct c as [? ? ? ? ? ? ? []].
Qed.

(** ** One submission at a time *)

(** X12. A form that has sent a request cannot be submitted again while the
    reply is out: the handler raised the loading flag before the request,
    and the flag disables the button. *)
Theorem one_submission_at_a_time (e : Event) (s s' : Session) :
  e = SubmitQuery \/ e = SubmitUpload ->
  fire e s = Some s' ->
  in_flight s' <> in_flight s ->
  fire e s' = None.
Proof.
  destruct s as [c l]. intros [-> | ->]; cbn [fire client in_flight].
  - destruct (page_shown _ && _); [| done]. intros [= <-] Hn.
    destruct (handleQuerySubmit_step c)
      as [E | [(c' & E & _) | (req & k & E & _)]];
      rewrite E in *; cbn in *; try done.
    by rewrite andb_false_r.
  - destruct (upload_section_shown _ && _); [| done]. intros [= <-] Hn.
    destruct (file (detailPage c)) as [f|] eqn:Hf;
      [| by rewrite (handleFileUpload_no_file c Hf) in Hn].
    destruct (collection_name_of (agent (detailPage c))) as [name|e] eqn:Hm;
      [| by rewrite (handleFileUpload_throws c f e Hf Hm) in Hn].
    destruct (handleFileUpload_sends c f name Hf Hm) as (req & k & E & _).
    rewrite E. cbn. by rewrite andb_false_r.
Qed.

Lemma one_submission_at_a_time_witness :
  let s := {| client := sample_client None true
                          (sample_page "rag" (lit "what is new?") None);
              in_flight := [] |} in
  exists s', fire SubmitQuery s = Some s' /\ fire SubmitQuery s' = None.
Proof.
  intros s. eexists. split; [reflexivity |].
  eapply (one_submission_at_a_time SubmitQuery s); [by left | reflexivity |].
  by vm_compute.
Defined.

(** ** Deleting from the detail page *)

(** X13. Deleting the agent from its own page. Without the user's
    confirmation nothing goes out and nothing changes. With it, one
    [DELETE /agents/{agentId}] goes out; when it is fulfilled the router
    goes to the list and the hooks stay; when it is not, the error of the
    page is set, and since the page shows nothing but that error from then
    on, neither form can be used any more. *)
Theorem detail_delete_outcomes (c : Client) (net : Request -> Reply) :
  let r := run net (AgentDetailPage_deleteAgent c) in
  outcome r = Returned tt
  /\ if confirm c delete_prompt
     then exists req,
            sent r = [req]
            /\ method req = DELETE
            /\ url req = lit "/agents/" ++ agentId (detailPage c)
            /\ if fulfilled (net req)
               then after r =
                      with_browser (localStorage c) (lit "/agents")
                        (journal c) c
               else after r =
                      put_error (after_reply (net req) c) (Some delete_failed)
                    /\ forall waiting text,
                         let s := {| client := after r;
                                     in_flight := waiting |} in
                         fire (TypeQuery text) s = None
                         /\ fire SubmitQuery s = None
                         /\ fire SubmitUpload s = None
     else sent r = [] /\ after r = c.
Proof.
  unfold AgentDetailPage_deleteAgent, delete_prompt. step_through.
  destruct (confirm c _); step_through; [| done].
  split.
  all: destruct (truthy_str _); step_through.
  all: try (destruct (net _) as [rsp|]; step_through;
            [destruct ((200 <=? status rsp) && (status rsp <? 300))%N;
             step_through; [| destruct (status rsp =? 401)%N; step_through]
            |]; done).
  all: on_reply net rsp; unfold after_reply, end_session; step_through;
    try (destruct (status rsp =? 401)%N; step_through);
    rewrite ?journal_two;
    split_and!; try done;
    intros waiting text; cbn -[lit];
    unfold upload_section_shown, page_shown; cbn -[lit];
    by destruct (loading (detailPage c)).
Qed.

(** ** More on the response block *)

Lemma map_outcome_sources (docs : list JSON) :
  Forall has_string_content docs ->
  exists lines,
    map_outcome render_source docs = Returned lines
    /\ length lines = length docs
    /\ Forall (fun line => (length line <= 103)%nat) lines.
Proof.
  induction 1 as [|doc docs [s Hs] _ (lines & E & Hl & Hb)]; cbn -[lit].
  - by exists [].
  - unfold render_source at 1. rewrite Hs. cbn -[lit]. rewrite E. cbn -[lit].
    eexists. split; [reflexivity |]. split; [cbn; by rewrite Hl |].
    constructor; [| done].
    rewrite length_app, length_firstn.
    change (length (lit "...")) with 3%nat. lia.
Qed.

Lemma type_is_rag (a : Agent) :
  agent_type a = lit "rag" ->
  str_eqb (agent_type a) (lit "rag") = true
  /\ str_eqb (agent_type a) (lit "search") = false
  /\ str_eqb (agent_type a) (lit "ml") = false.
Proof. intros ->. by vm_compute. Qed.

Lemma type_is_search (a : Agent) :
  agent_type a = lit "search" ->
  str_eqb (agent_type a) (lit "rag") = false
  /\ str_eqb (agent_type a) (lit "search") = true
  /\ str_eqb (agent_type a) (lit "ml") = false.
Proof. intros ->. by vm_compute. Qed.


Lemma rag_elements (a : Agent) (members : list (str * JSON))
    (answer : JSON) (docs : list JSON) :
  agent_type a = lit "rag" ->
  assoc (lit "answer") members = Some answer ->
  truthy answer = true ->
  assoc (lit "source_documents") members = Some (JArray docs) ->
  docs <> [] ->
  Forall has_string_content docs ->
  exists lines,
    response_elements a (JObject members) =
      Returned
        (Element
           {| rag_block :=
                Element {| rag_answer := Some answer;
                           rag_sources := Element lines |};
              search_block := Value (Some (JBool false));
              ml_block := Value (Some (JBool false)) |})
    /\ length lines = length docs
    /\ Forall (fun line => (length line <= 103)%nat) lines.
Proof.
  intros Hrag Hans Ht Hdocs Hne Hall.
  destruct (type_is_rag a Hrag) as (T1 & T2 & T3).
  destruct (map_outcome_sources docs Hall) as (lines & E & Hl & Hb).
  exists lines. split; [| done].
  unfold response_elements, when_type. rewrite T1, T2, T3.
  cbn -[lit truthy]. rewrite Hans. cbn -[lit truthy].
  unfold and_then at 2. unfold truthy_opt. rewrite Ht, Hdocs.
  unfold render_list. cbn -[lit map_outcome].
  destruct docs as [|d docs]; [done |]. cbn -[lit map_outcome].
  by rewrite E.
Qed.

(** X14. For a RAG agent, a result with a truthy [answer] and sources that
    all have a string [content] renders when the answer is a value that
    React shows (a string, a number, [true], an array of such): one line per
    source, each at most 103 code units long (the first hundred of the
    content and three dots). When the answer is an object, or an array with
    an object in it, React throws instead. *)
Theorem rag_sources_rendered (a : Agent) (members : list (str * JSON))
    (answer : JSON) (docs : list JSON) :
  agent_type a = lit "rag" ->
  assoc (lit "answer") members = Some answer ->
  truthy answer = true ->
  assoc (lit "source_documents") members = Some (JArray docs) ->
  docs <> [] ->
  Forall has_string_content docs ->
  exists lines,
    render_response a (JObject members) =
      (if valid_child answer
       then Returned
              (Element
                 {| rag_block :=
                      Element {| rag_answer := Some answer;
                                 rag_sources := Element lines |};
                    search_block := Value (Some (JBool false));
                    ml_block := Value (Some (JBool false)) |})
       else Thrown ReactError)
    /\ length lines = length docs
    /\ Forall (fun line => (length line <= 103)%nat) lines.
Proof.
  intros Hrag Hans Ht Hdocs Hne Hall.
  destruct (rag_elements a members answer docs Hrag Hans Ht Hdocs Hne Hall)
    as (lines & E & Hl & Hb).
  exists lines. split; [| done].
  unfold render_response. rewrite E. cbn.
  unfold valid_response, valid_rag. cbn.
  by destruct (valid_child answer).
Qed.

Lemma rag_sources_rendered_witness :
  exists lines,
    render_response (sample_agent "rag")
      (JObject [(lit "answer", JString (lit "42"));
                (lit "source_documents",
                 JArray [JObject [(lit "content", JString (lit "a page"))]])])
    = Returned
        (Element
           {| rag_block :=
                Element {| rag_answer := Some (JString (lit "42"));
                           rag_sources := Element lines |};
              search_block := Value (Some (JBool false));
              ml_block := Value (Some (JBool false)) |})
    /\ length lines = 1%nat.
Proof.
  destruct (rag_sources_rendered (sample_agent "rag")
              [(lit "answer", JString (lit "42"));
               (lit "source_documents",
                JArray [JObject [(lit "content", JString (lit "a page"))]])]
              (JString (lit "42"))
              [JObject [(lit "content", JString (lit "a page"))]])
    as (lines & E & Hl & _); try reflexivity.
  - discriminate.
  - apply Forall_cons_2; [| apply Forall_nil_2].
    by exists (lit "a page").
  - exists lines. split; [exact E | exact Hl].
Defined.

Lemma map_outcome_results (results : list JSON) :
  ~ In JNull results ->
  map_outcome render_search_result results =
    Returned
      (List.map (fun r => (field r (lit "link"), field r (lit "title")))
         results).
Proof.
  induction results as [|x results IH]; cbn -[lit]; intros Hn; [done |].
  rewrite IH by tauto.
  assert (x <> JNull) as Hx by tauto.
  unfold render_search_result, member. by destruct x.
Qed.

Lemma forallb_of_map {A B} (f : B -> bool) (g : A -> B) (l : list A) :
  forallb f (List.map g l) = forallb (fun x => f (g x)) l.
Proof. induction l as [|x l IH]; cbn; [done | by rewrite IH]. Qed.

Lemma map_outcome_null (results : list JSON) :
  In JNull results ->
  map_outcome render_search_result results = Thrown TypeError.
Proof.
  induction results as [|x results IH]; cbn -[lit]; [done |].
  intros [-> | Hin]; [done |].
  unfold render_search_result at 1, member.
  destruct x; try done; cbn -[lit]; by rewrite (IH Hin).
Qed.

(** X15. For a search agent the sources are read more leniently than those
    of a RAG agent. An element that is [null] makes the render throw a
    TypeError. Without one, the block has one entry per result, with the
    [link] and [title] of the result or nothing where they are missing, and
    it renders when the answer and every title are values that React
    shows; when one of them is an object React throws instead. *)
Theorem search_results_rendered (a : Agent) (members : list (str * JSON))
    (answer : JSON) (results : list JSON) :
  agent_type a = lit "search" ->
  assoc (lit "answer") members = Some answer ->
  truthy answer = true ->
  assoc (lit "search_results") members = Some (JArray results) ->
  results <> [] ->
  (In JNull results ->
   render_response a (JObject members) = Thrown TypeError)
  /\ (~ In JNull results ->
      render_response a (JObject members) =
        if valid_child answer
           && forallb (fun r => valid_child_opt (field r (lit "title")))
                results
        then Returned
               (Element
                  {| rag_block := Value (Some (JBool false));
                     search_block :=
                       Element
                         {| search_answer := Some answer;
                            search_sources :=
                              Element
                                (List.map
                                   (fun r => (field r (lit "link"),
                                              field r (lit "title")))
                                   results) |};
                     ml_block := Value (Some (JBool false)) |})
        else Thrown ReactError).
Proof.
  intros Hs Hans Ht Hres Hne.
  destruct (type_is_search a Hs) as (T1 & T2 & T3).
  unfold render_response, response_elements, when_type.
  rewrite T1, T2, T3.
  cbn -[lit truthy]. rewrite Hans. cbn -[lit truthy].
  unfold and_then, truthy_opt. cbn -[lit truthy render_list].
  rewrite Ht, Hres.
  unfold render_list. cbn -[lit map_outcome].
  destruct results as [|x results]; [done |]. cbn -[lit map_outcome].
  split.
  - intros Hin. by rewrite (map_outcome_null (x :: results) Hin).
  - intros Hn. rewrite (map_outcome_results (x :: results) Hn).
    cbn -[lit]. unfold valid_response, valid_search. cbn -[lit].
    rewrite forallb_of_map. cbn -[lit].
    by destruct (valid_child answer && _).
Qed.

(** Two results, the second a stray string: two entries. *)
Lemma search_results_rendered_witness :
  render_response (sample_agent "search")
    (JObject [(lit "answer", JString (lit "42"));
              (lit "search_results",
               JArray [JObject [(lit "title", JString (lit "a page"))];
                       JString (lit "stray")])])
  = Returned
      (Element
         {| rag_block := Value (Some (JBool false));
            search_block :=
              Element
                {| search_answer := Some (JString (lit "42"));
                   search_sources :=
                     Element [(None, Some (JString (lit "a page")));
                              (None, None)] |};
            ml_block := Value (Some (JBool false)) |}).
Proof.
  destruct (search_results_rendered (sample_agent "search")
              [(lit "answer", JString (lit "42"));
               (lit "search_results",
                JArray [JObject [(lit "title", JString (lit "a page"))];
                        JString (lit "stray")])]
              (JString (lit "42"))
              [JObject [(lit "title", JString (lit "a page"))];
               JString (lit "stray")])
    as (_ & H);
    [reflexivity | reflexivity | reflexivity | reflexivity | discriminate |].
  apply H. intros [E | [E | []]]; discriminate.
Defined.



(** X17. A response block has at most one part: the three parts are told
    apart by the type of the agent, so no two of them are ever elements at
    once, and for an agent of another type than the three none is. *)
Theorem one_block_at_most (a : Agent) (result : JSON) (view : ResponseView) :
  render_response a result = Returned (Element view) ->
  (Nat.b2n (is_element (rag_block view))
   + Nat.b2n (is_element (search_block view))
   + Nat.b2n (is_element (ml_block view)) <= 1)%nat
  /\ (~ counted_type a ->
      is_element (rag_block view) = false
      /\ is_element (search_block view) = false
      /\ is_element (ml_block view) = false).
Proof.
  intros H.
  assert (response_elements a result = Returned (Element view)) as H0.
  { unfold render_response in H.
    destruct (response_elements a result) as [v|e]; cbn in H; [| done].
    destruct (valid_slot valid_response v); [done | discriminate]. }
  clear H. revert H0.
  unfold response_elements, when_type, and_then, counted_type.
  destruct (truthy_opt (Some result)); [| done].
  unfold str_eqb.
  destruct (decide (agent_type a = lit "rag")) as [E1 | E1];
    destruct (decide (agent_type a = lit "search")) as [E2 | E2];
    destruct (decide (agent_type a = lit "ml")) as [E3 | E3];
    try (rewrite E1 in E2; by vm_compute in E2);
    try (rewrite E1 in E3; by vm_compute in E3);
    try (rewrite E2 in E3; by vm_compute in E3);
    rewrite ?(bool_decide_eq_true_2 _ E1), ?(bool_decide_eq_false_2 _ E1),
      ?(bool_decide_eq_true_2 _ E2), ?(bool_decide_eq_false_2 _ E2),
      ?(bool_decide_eq_true_2 _ E3), ?(bool_decide_eq_false_2 _ E3);
    cbn -[lit];
    repeat match goal with
    | |- context [outcome_bind ?o _] =>
        let E := fresh in destruct o as [[]|] eqn:E; cbn -[lit]
    | |- context [if ?b then _ else _] => destruct b; cbn -[lit]
    end;
    intros [= <-]; cbn; split; try lia; tauto.
Qed.

Lemma one_block_at_most_witness :
  let view := {| rag_block := Value (Some (JBool false));
                 search_block := Value (Some (JBool false));
                 ml_block := Element (JBool true) |} in
  (Nat.b2n (is_element (rag_block view))
   + Nat.b2n (is_element (search_block view))
   + Nat.b2n (is_element (ml_block view)) <= 1)%nat.
Proof.
  intros view.
  apply (one_block_at_most (sample_agent "ml") (JBool true) view).
  reflexivity.
Defined.

(** ** More on the agent list *)

(** One run of a deletion from the list, in full. *)
Lemma AgentsPage_deleteAgent_run (id : str) (net : Request -> Reply)
    (c : Client) :
  if confirm c delete_prompt
  then exists req,
         run net (AgentsPage_deleteAgent id c) =
           {| outcome := Returned tt;
              after :=
                if fulfilled (net req)
                then put_agents c
                       (filter (fun a => agent_id a <> id)
                               (agents (agentsPage c)))
                else put_agents_error (after_reply (net req) c)
                       (Some delete_failed);
              sent := [req] |}
  else run net (AgentsPage_deleteAgent id c) =
         {| outcome := Returned tt; after := c; sent := [] |}.
Proof.
  unfold AgentsPage_deleteAgent, delete_prompt. step_through.
  destruct (confirm c _); step_through; [| done].
  destruct (truthy_str _); step_through;
    on_reply net rsp; unfold after_reply, end_session; step_through;
    try (destruct (status rsp =? 401)%N; step_through);
    by rewrite ?journal_two.
Qed.

Lemma cards_of_render (p : AgentsPageState) :
  agents_loading p = false ->
  NoDup (List.map agent_id (agents p)) ->
  cards_of (AgentsPage_render p) = List.map card (agents p).
Proof.
  intros H Hn. unfold AgentsPage_render. rewrite H.
  destruct (agents p); [done |]. by rewrite (bool_decide_eq_true_2 _ Hn).
Qed.

Lemma map_card_filter (id : str) (l : list Agent) :
  List.map card (filter (fun a => agent_id a <> id) l)
  = filter (fun k => card_delete k <> id) (List.map card l).
Proof.
  induction l as [|a l IH]; [done |].
  rewrite filter_cons. cbn [List.map]. rewrite filter_cons.
  cbn [card_delete card].
  destruct (decide (agent_id a <> id)); cbn [List.map]; by rewrite IH.
Qed.

Lemma filter_keeps_ids (id : str) (l : list Agent) (x : str) :
  x ∈ List.map agent_id (filter (fun a => agent_id a <> id) l) ->
  x ∈ List.map agent_id l.
Proof.
  induction l as [|a l IH]; [done |].
  rewrite filter_cons. destruct (decide (agent_id a <> id)); cbn [List.map].
  - rewrite !elem_of_cons. tauto.
  - rewrite elem_of_cons. tauto.
Qed.

Lemma filter_keeps_NoDup (id : str) (l : list Agent) :
  NoDup (List.map agent_id l) ->
  NoDup (List.map agent_id (filter (fun a => agent_id a <> id) l)).
Proof.
  induction l as [|a l IH]; [done |]. cbn [List.map].
  intros [Ha Hl]%NoDup_cons. rewrite filter_cons.
  destruct (decide (agent_id a <> id)); cbn [List.map]; [| auto].
  apply NoDup_cons. split; [| auto].
  intros Hin. apply Ha. by eapply filter_keeps_ids.
Qed.

Lemma filter_absent (id : str) (l : list Agent) :
  id ∉ List.map agent_id l ->
  filter (fun a => agent_id a <> id) l = l.
Proof.
  induction l as [|a l IH]; [done |]. cbn [List.map].
  rewrite not_elem_of_cons. intros [Ha Hl].
  rewrite filter_cons. destruct (decide (agent_id a <> id)) as [D|D].
  - by rewrite IH.
  - exfalso. apply D. intros E. by apply Ha.
Qed.

(** With ids that differ, the filter takes one agent away. *)
Lemma filter_takes_one (id : str) (l : list Agent) :
  NoDup (List.map agent_id l) ->
  id ∈ List.map agent_id l ->
  S (length (filter (fun a => agent_id a <> id) l)) = length l.
Proof.
  induction l as [|a l IH]; cbn [List.map].
  - intros _ H. by apply elem_of_nil in H.
  - intros [Ha Hl]%NoDup_cons Hin. rewrite filter_cons.
    destruct (decide (agent_id a <> id)) as [D|D]; cbn [length].
    + apply elem_of_cons in Hin as [-> | Hin]; [done |]. by rewrite IH.
    + assert (agent_id a = id) as <-
        by (by destruct (decide (agent_id a = id))).
      by rewrite filter_absent.
Qed.

(** X18. On a list whose agents have ids that differ, with no deletion in
    flight: Delete on a card, confirmed and fulfilled before anything else
    happens, takes that card from the page and no other. The page shows
    the cards it showed before, in their order, without the one card; when
    none is left it shows the empty state again. *)
Theorem cards_after_delete (s : Session) (k : Card) (rp : Reply) :
  in_flight s = [] ->
  NoDup (List.map agent_id (agents (agentsPage (client s)))) ->
  k ∈ cards_of (AgentsPage_render (agentsPage (client s))) ->
  confirm (client s) delete_prompt = true ->
  fulfilled rp = true ->
  exists s',
    list_fire_all [ClickDelete (card_delete k); ListArrive 0 rp] s = Some s'
    /\ in_flight s' = []
    /\ cards_of (AgentsPage_render (agentsPage (client s'))) =
         filter (fun x => card_delete x <> card_delete k)
           (cards_of (AgentsPage_render (agentsPage (client s))))
    /\ S (length (cards_of (AgentsPage_render (agentsPage (client s'))))) =
         length (cards_of (AgentsPage_render (agentsPage (client s))))
    /\ (k ∉ cards_of (AgentsPage_render (agentsPage (client s'))))
    /\ (cards_of (AgentsPage_render (agentsPage (client s'))) = [] ->
        AgentsPage_render (agentsPage (client s')) =
          AgentsListing (banner_of (agents_error (agentsPage (client s))))
            NoAgentsYet).
Proof.
  destruct s as [c waiting]. cbn [client in_flight].
  intros -> Hn Hk Hc Hf.
  assert (agents_loading (agentsPage c) = false) as Hl.
  { destruct (agents_loading (agentsPage c)) eqn:E; [| done].
    unfold AgentsPage_render in Hk. rewrite E in Hk.
    by apply elem_of_nil in Hk. }
  rewrite (cards_of_render _ Hl Hn) in *.
  assert (card_delete k ∈ List.map agent_id (agents (agentsPage c))) as Hid.
  { apply list_elem_of_In, in_map_iff in Hk as (a & <- & Ha).
    apply list_elem_of_In, in_map_iff. by exists a. }
  destruct (AgentsPage_deleteAgent_await (card_delete k) c Hc)
    as (req & kont & E & _ & _ & Hkont).
  eexists. split.
  { cbn [list_fire_all list_fire client in_flight]. rewrite Hl.
    rewrite (bool_decide_eq_true_2 _ Hid). cbn [negb andb]. rewrite E.
    cbn [settle_step app client in_flight lookup list_lookup].
    rewrite Hkont, Hf. reflexivity. }
  cbn [settle_step client in_flight].
  split; [done |].
  pose proof (filter_keeps_NoDup (card_delete k) _ Hn) as Hn'.
  rewrite cards_of_render by done.
  cbn [agentsPage put_agents with_agentsPage agents].
  rewrite map_card_filter. split; [done |]. split.
  { rewrite <- map_card_filter, !length_map. by apply filter_takes_one. }
  split.
  - rewrite list_elem_of_filter. tauto.
  - intros Hnil. unfold AgentsPage_render. cbn. rewrite Hl.
    rewrite <- map_card_filter in Hnil.
    by destruct (filter _ (agents (agentsPage c))).
Qed.

(** Agent 7 leaves the list of 7 and 8. *)
Lemma cards_after_delete_witness :
  exists s',
    list_fire_all [ClickDelete (lit "7"); ListArrive 0 no_content] sample_list
      = Some s'
    /\ cards_of (AgentsPage_render (agentsPage (client s'))) =
         [card (agent_numbered "8" "ml")].
Proof.
  destruct (cards_after_delete sample_list (card (agent_numbered "7" "rag"))
              no_content) as (s' & E & _ & H & _).
  - reflexivity.
  - refine (bool_decide_unpack _ _). by vm_compute.
  - apply list_elem_of_here.
  - reflexivity.
  - reflexivity.
  - exists s'. split; [exact E |]. rewrite H. by vm_compute.
Defined.

Lemma delete_each_step (id : str) (net : Request -> Reply) (c : Client) :
  let c' := after (run net (AgentsPage_deleteAgent id c)) in
  agents (agentsPage c') `sublist_of` agents (agentsPage c)
  /\ (is_Some (agents_error (agentsPage c)) ->
      is_Some (agents_error (agentsPage c')))
  /\ detailPage c' = detailPage c.
Proof.
  pose proof (AgentsPage_deleteAgent_run id net c) as H.
  destruct (confirm c delete_prompt); [destruct H as (req & ->) | rewrite H];
    cbn zeta; cbn [after]; [| done].
  unfold after_reply.
  destruct (fulfilled (net req)); [| destruct (is_401 _)]; cbn;
    split_and!; eauto using sublist_filter.
Qed.

Lemma delete_each_sublist (attempts : list (str * (Request -> Reply)))
    (c : Client) :
  agents (agentsPage (delete_each attempts c))
    `sublist_of` agents (agentsPage c).
Proof.
  revert c. induction attempts as [|[id net] rest IH]; intros c; [done |].
  cbn [delete_each].
  destruct (delete_each_step id net c) as (S1 & _). cbn zeta in S1.
  etrans; [apply IH | exact S1].
Qed.

(** X19. However many deletions are tried one after the other, and however
    each one ends, the list page only loses agents (what is left is what
    was there, in the same order), it never takes its error message back
    once one is set (a later success leaves the banner up), and it never
    touches the detail page. *)
Theorem deletions_only_remove (attempts : list (str * (Request -> Reply)))
    (c : Client) :
  let c' := delete_each attempts c in
  agents (agentsPage c') `sublist_of` agents (agentsPage c)
  /\ (is_Some (agents_error (agentsPage c)) ->
      is_Some (agents_error (agentsPage c')))
  /\ detailPage c' = detailPage c.
Proof.
  cbn zeta. revert c.
  induction attempts as [|[id net] rest IH]; intros c; [done |].
  cbn [delete_each].
  destruct (delete_each_step id net c) as (S1 & E1 & D1).
  destruct (IH (after (run net (AgentsPage_deleteAgent id c))))
    as (S2 & E2 & D2).
  cbn zeta in *. split_and!.
  - by etrans.
  - auto.
  - congruence.
Qed.

(** X20. An agent whose deletion was fulfilled is gone from the list for
    good: no agent of that id is there afterwards, whatever further
    deletions are tried one after the other. *)
Theorem deleted_stays_deleted (id : str) (net : Request -> Reply)
    (c : Client) (req : Request)
    (attempts : list (str * (Request -> Reply))) :
  sent (run net (AgentsPage_deleteAgent id c)) = [req] ->
  fulfilled (net req) = true ->
  Forall (fun a => agent_id a <> id)
    (agents
       (agentsPage
          (delete_each attempts
             (after (run net (AgentsPage_deleteAgent id c)))))).
Proof.
  intros Hs Hf.
  pose proof (AgentsPage_deleteAgent_run id net c) as H.
  destruct (confirm c delete_prompt);
    [destruct H as (rq & E) | by rewrite H in Hs].
  rewrite E in *. cbn [sent] in Hs. injection Hs as ->. cbn [after].
  rewrite Hf.
  pose proof (delete_each_sublist attempts
                (put_agents c (filter (fun a => agent_id a <> id)
                                      (agents (agentsPage c))))) as S.
  apply Forall_forall. intros a Ha.
  pose proof (elem_of_sublist _ _ _ Ha S) as Hb. cbn in Hb.
  by apply list_elem_of_filter in Hb as [? _].
Qed.

Lemma deleted_stays_deleted_witness :
  let c := sample_client None true (sample_page "rag" [] None) in
  Forall (fun a => agent_id a <> lit "7")
    (agents
       (agentsPage
          (delete_each [(lit "8", answers 500 JNull)]
             (after (run (answers 204 JNull)
                       (AgentsPage_deleteAgent (lit "7") c)))))).
Proof.
  intros c.
  pose proof (AgentsPage_deleteAgent_run (lit "7") (answers 204 JNull) c) as H.
  change (confirm c delete_prompt) with true in H. destruct H as (req & E).
  apply (deleted_stays_deleted (lit "7") (answers 204 JNull) c req).
  - exact (f_equal sent E).
  - reflexivity.
Defined.

(** X21. A 401 on a deletion from the list ends the session and still
    reports the failure: the token is removed, the browser is sent to
    /login, the list keeps every agent and the page error is the deletion
    message. *)
Theorem unauthorized_list_delete (id : str) (c : Client)
    (net : Request -> Reply) (req : Request) :
  sent (run net (AgentsPage_deleteAgent id c)) = [req] ->
  is_401 (error_of (net req)) = true ->
  let c' := after (run net (AgentsPage_deleteAgent id c)) in
  localStorage c' = delete (lit "token") (localStorage c)
  /\ location_href c' = lit "/login"
  /\ journal c' =
       journal c ++ [RemoveItem (lit "token"); SetHref (lit "/login")]
  /\ agents (agentsPage c') = agents (agentsPage c)
  /\ agents_error (agentsPage c') = Some delete_failed.
Proof.
  intros Hs H401.
  pose proof (AgentsPage_deleteAgent_run id net c) as H.
  destruct (confirm c delete_prompt);
    [destruct H as (rq & E) | by rewrite H in Hs].
  rewrite E in *. cbn [sent] in Hs. injection Hs as ->. cbn zeta.
  cbn [after]. unfold after_reply.
  by rewrite (is_401_not_fulfilled _ H401), H401.
Qed.

Lemma unauthorized_list_delete_witness :
  let c := sample_client (Some (lit "secret")) true
             (sample_page "rag" [] None) in
  let c' := after (run (answers 401 JNull)
                     (AgentsPage_deleteAgent (lit "7") c)) in
  localStorage c' !! lit "token" = None
  /\ location_href c' = lit "/login"
  /\ agents (agentsPage c') = [sample_agent "rag"; sample_agent "ml"].
Proof.
  intros c c'.
  pose proof (AgentsPage_deleteAgent_run (lit "7") (answers 401 JNull) c) as H.
  change (confirm c delete_prompt) with true in H. destruct H as (req & E).
  destruct (unauthorized_list_delete (lit "7") c (answers 401 JNull) req)
    as (H1 & H2 & _ & H4 & _);
    [exact (f_equal sent E) | reflexivity |].
  subst c'. rewrite H1, H2, H4.
  split; [by vm_compute | split; reflexivity].
Defined.

(** ** The dashboard *)

Lemma count_types (agents : list Agent) :
  (count_type (lit "rag") agents + count_type (lit "search") agents
   + count_type (lit "ml") agents
   + length (filter (fun a => ~ counted_type a) agents)
   = length agents)%nat.
Proof.
  unfold count_type.
  induction agents as [|a l IH]; [done |].
  rewrite !filter_cons. unfold counted_type at 1.
  destruct (decide (agent_type a = lit "rag")) as [E1|E1];
    destruct (decide (agent_type a = lit "search")) as [E2|E2];
    destruct (decide (agent_type a = lit "ml")) as [E3|E3];
    try (rewrite E1 in E2; by vm_compute in E2);
    try (rewrite E1 in E3; by vm_compute in E3);
    try (rewrite E2 in E3; by vm_compute in E3);
    match goal with
    | |- context [decide ?P] => destruct (decide P) as [D|D]
    end; cbn [length]; try lia; exfalso; tauto.
Qed.

(** X22. Quick Stats on the dashboard: the three counts by type never add
    up to more than the total, and they add up to the total exactly when
    every agent is of type rag, search or ml (an agent of another type is
    in the total and in no count).  The activity line says that the agents
    are ready exactly when the body shows cards, and there are as many
    cards as the total says. *)
Theorem dashboard_counts (user : option JSON) (agents : list Agent)
    (error : option str) :
  exists view,
    DashboardPage_render user agents false error = Some view
    /\ let s := dashboard_stats view in
       (rag_agents s + search_agents s + ml_agents s <= total_agents s)%nat
       /\ ((rag_agents s + search_agents s + ml_agents s)%nat
             = total_agents s
           <-> Forall counted_type agents)
       /\ match dashboard_body view with
          | NoDashboardAgents =>
              total_agents s = 0%nat
              /\ recent_activity s = lit "Create an agent to get started."
          | DashboardCards cards =>
              length cards = total_agents s /\ (0 < total_agents s)%nat
              /\ recent_activity s = lit "Your agents are ready to use."
          end.
Proof.
  eexists. split; [reflexivity |]. cbn zeta.
  cbn [dashboard_stats dashboard_body stats total_agents rag_agents
       search_agents ml_agents recent_activity].
  pose proof (count_types agents) as H. split_and!.
  - lia.
  - split.
    + intros E.
      assert (filter (fun a => ~ counted_type a) agents = []) as Hn
        by (apply length_zero_iff_nil; lia).
      apply Forall_forall. intros a Ha.
      destruct (decide (counted_type a)) as [D|D]; [done |].
      assert (a ∈ filter (fun a => ~ counted_type a) agents) as Hin
        by by apply list_elem_of_filter.
      rewrite Hn in Hin. by apply elem_of_nil in Hin.
    + intros Hall.
      assert (filter (fun a => ~ counted_type a) agents = []) as Hn.
      { clear H. induction Hall as [|a l Ha _ IH]; [done |].
        rewrite filter_cons. by destruct (decide (~ counted_type a)). }
      rewrite Hn in H. cbn [length] in H. lia.
  - destruct agents as [|a l]; [done |].
    cbn [List.map length]. rewrite length_map. split_and!; [done | lia | done].
Qed.

(** X23. The welcome line of the dashboard shows the text User while no
    user is loaded and when the username is missing or falsy, and the
    username when that is a string that is not empty. A username of another
    kind goes to React as it is: [true] shows nothing, an object is
    refused. An agent's card carries a description that is not empty, on
    the list and on the dashboard, the same on both. *)
Theorem placeholders_fill_gaps (user : option JSON) (a : Agent) :
  (truthy_opt (username_of user) = false ->
   show_child (welcome user) = ShownText (lit "User"))
  /\ (forall s,
        username_of user = Some (JString s) ->
        show_child (welcome user) =
          ShownText (if nonempty s then s else lit "User"))
  /\ (username_of user = Some (JBool true) ->
      show_child (welcome user) = ShownNothing)
  /\ (forall ms,
        username_of user = Some (JObject ms) ->
        show_child (welcome user) = Refused)
  /\ nonempty (card_description (card a)) = true
  /\ dashboard_description (dashboard_card a) = card_description (card a).
Proof.
  assert (forall n, username_of user = Some n ->
            welcome user = if truthy n then n else JString (lit "User"))
    as Hsome.
  { intros n. destruct user as [[| | | | |ms]|]; try done.
    unfold username_of, field, welcome, member. by intros ->. }
  assert (username_of user = None -> welcome user = JString (lit "User"))
    as Hnone.
  { destruct user as [[| | | | |ms]|]; try done.
    unfold username_of, field, welcome, member. by intros ->. }
  split_and!.
  - destruct (username_of user) as [n|] eqn:E; cbn.
    + intros Ht. by rewrite (Hsome n eq_refl), Ht.
    + intros _. by rewrite Hnone.
  - intros s0 E. rewrite (Hsome _ E). by destruct s0.
  - intros E. by rewrite (Hsome _ E).
  - intros ms E. by rewrite (Hsome _ E).
  - cbn. by destruct (agent_description a) as [[|x s0]|].
  - done.
Qed.
